(** * html_to_pdf_converter.py: a shallow embedding and its properties

    The program converts HTML files or strings to PDF through one of two
    backends chosen when the module is imported, converts whole directories
    in a batch loop, and has a small command line front end.

    Python [str] values are modelled as [string] (sequences of 8-bit
    characters); case folding and white space are the ASCII ones.  Effects
    (the filesystem, the log, standard output) are threaded through a state
    and exception monad in which the state survives a raised exception, as
    it does in Python. *)

From Stdlib Require Import Ascii String List Bool Arith Lia.
From stdpp Require Import base option list gmap strings pretty.
Import ListNotations.
Local Open Scope list_scope.
Local Open Scope string_scope.

(** ** Python string operations used by the program *)

Module PyStr.

Definition is_char (a b : ascii) : bool := Ascii.eqb a b.

Definition nl : ascii := "010"%char.
Definition dot : ascii := "."%char.
Definition sep : ascii := "/"%char.

Definition truthy (s : string) : bool :=
  match s with "" => false | _ => true end.

Fixpoint startswith (s prefix : string) {struct prefix} : bool :=
  match prefix with
  | "" => true
  | String p prefix' =>
      match s with
      | "" => false
      | String c s' => is_char c p && startswith s' prefix'
      end
  end.

(** [s.endswith(suffix)]: some tail of [s] is [suffix]. *)
Fixpoint endswith (s suffix : string) : bool :=
  String.eqb s suffix ||
  match s with
  | "" => false
  | String _ s' => endswith s' suffix
  end.

Definition lower_char (c : ascii) : ascii :=
  let n := nat_of_ascii c in
  if (65 <=? n)%nat && (n <=? 90)%nat then ascii_of_nat (n + 32) else c.

Fixpoint lower (s : string) : string :=
  match s with
  | "" => ""
  | String c s' => String (lower_char c) (lower s')
  end.

(** White space in the sense of [str.isspace] on ASCII text. *)
Definition isspace (c : ascii) : bool :=
  let n := nat_of_ascii c in
  ((9 <=? n)%nat && (n <=? 13)%nat) || ((28 <=? n)%nat && (n <=? 32)%nat).

Fixpoint lstrip (s : string) : string :=
  match s with
  | "" => ""
  | String c s' => if isspace c then lstrip s' else s
  end.

Fixpoint rstrip (s : string) : string :=
  match s with
  | "" => ""
  | String c s' =>
      match rstrip s' with
      | "" => if isspace c then "" else String c ""
      | r => String c r
      end
  end.

Definition strip (s : string) : string := rstrip (lstrip s).

Definition cons_head (c : ascii) (l : list string) : list string :=
  match l with
  | [] => [String c ""]
  | x :: xs => String c x :: xs
  end.

(** [s.split(sep)] for a one-character separator. *)
Fixpoint split_char (d : ascii) (s : string) : list string :=
  match s with
  | "" => [""]
  | String c s' =>
      if is_char c d then "" :: split_char d s'
      else cons_head c (split_char d s')
  end.

(** [s.split('\n\n')]: left to right, matches do not overlap. *)
Fixpoint split_blank (s : string) : list string :=
  match s with
  | "" => [""]
  | String c s' =>
      match s' with
      | "" => [String c ""]
      | String c2 s'' =>
          if is_char c nl && is_char c2 nl then "" :: split_blank s''
          else cons_head c (split_blank s')
      end
  end.

(** [(s[:i], s[i:])] with [i = s.rfind(d) + 1]. *)
Fixpoint rpartition (d : ascii) (s : string) : string * string :=
  match s with
  | "" => ("", "")
  | String c s' =>
      let '(h, t) := rpartition d s' in
      if truthy h then (String c h, t)
      else if is_char c d then (String c "", t)
      else ("", String c t)
  end.

Fixpoint rstrip_char (d : ascii) (s : string) : string :=
  match s with
  | "" => ""
  | String c s' =>
      match rstrip_char d s' with
      | "" => if is_char c d then "" else String c ""
      | r => String c r
      end
  end.

Fixpoint all_char (d : ascii) (s : string) : bool :=
  match s with
  | "" => true
  | String c s' => is_char c d && all_char d s'
  end.

(** [s[:-1]] *)
Fixpoint drop_last (s : string) : string :=
  match s with
  | "" => ""
  | String c "" => ""
  | String c s' => String c (drop_last s')
  end.

Fixpoint contains (s sub : string) : bool :=
  startswith s sub ||
  match s with
  | "" => false
  | String _ s' => contains s' sub
  end.

(** [str(n)] *)
Definition of_nat (n : nat) : string := pretty n.

End PyStr.

(** ** [os.path] (posixpath) and [pathlib] *)

Module os_path.
Import PyStr.

(** [os.path.join(a, b)] *)
Definition join (a b : string) : string :=
  if startswith b "/" then b
  else if negb (truthy a) || endswith a "/" then a ++ b
  else a ++ "/" ++ b.

(** [os.path.split(p)] *)
Definition split (p : string) : string * string :=
  let '(head, tail) := rpartition sep p in
  if truthy head && negb (all_char sep head)
  then (rstrip_char sep head, tail)
  else (head, tail).

Definition dirname (p : string) : string := fst (split p).
Definition basename (p : string) : string := snd (rpartition sep p).

End os_path.

Module pathlib.
Import PyStr.

(** The parts of a pure POSIX path below its root: empty and ["."]
    components are dropped when the path is parsed. *)
Definition parts (p : string) : list string :=
  List.filter (fun c => negb (String.eqb c "") && negb (String.eqb c ".")) (split_char sep p).

(** [Path(p).name] *)
Definition name (p : string) : string := List.last (parts p) "".

(** [Path(p).stem]: the name up to its last dot, when that dot is
    neither the first nor the last character of the name. *)
Definition stem (p : string) : string :=
  let n := name p in
  let '(h, t) := rpartition dot n in
  if (2 <=? String.length h)%nat && truthy t then drop_last h else n.

End pathlib.

(** ** Exceptions

    The classes of exception the program can see; each carries the text
    that [str(e)] gives.  [LibraryError] stands for whatever a rendering
    engine raises. *)

Inductive exn : Type :=
  | RuntimeError (msg : string)
  | FileNotFoundError (msg : string)
  | FileExistsError (msg : string)
  | NotADirectoryError (msg : string)
  | IsADirectoryError (msg : string)
  | LibraryError (msg : string).

Definition str_exn (e : exn) : string :=
  match e with
  | RuntimeError m | FileNotFoundError m | FileExistsError m
  | NotADirectoryError m | IsADirectoryError m | LibraryError m => m
  end.

Inductive result (A : Type) : Type :=
  | Ok (a : A)
  | Raise (e : exn).
Arguments Ok {A} a.
Arguments Raise {A} e.

(** ** The filesystem

    A tree of directories and regular files keyed by the list of path
    components from the root.  A path is resolved against the tree, one
    component at a time, from the root or the working directory: each
    component is looked up in a directory that exists, so [a.html/],
    [missing/../a.html] and [c.txt/../a.html] name nothing.  Symbolic links
    and permissions are not modelled. *)

Inductive inode : Type :=
  | RegularFile (data : string)
  | Directory.

Record filesystem : Type := mkFs {
  cwd : list string;
  tree : gmap (list string) inode
}.

Module os.
Import PyStr.

(** What is at a key; the root is always a directory. *)
Definition node (t : gmap (list string) inode) (k : list string) : option inode :=
  match k with
  | [] => Some Directory
  | _ => t !! k
  end.

(** Where one component leads from the directory [acc]: nowhere for the
    empty component and [.], to the parent for [..], to the entry of that
    name otherwise. *)
Definition step (acc : list string) (c : string) : list string :=
  if String.eqb c "" || String.eqb c "." then acc
  else if String.eqb c ".." then removelast acc
  else (acc ++ [c])%list.

Definition enoent (p : string) : exn :=
  FileNotFoundError ("[Errno 2] No such file or directory: '" ++ p ++ "'").
Definition eexist (p : string) : exn :=
  FileExistsError ("[Errno 17] File exists: '" ++ p ++ "'").
Definition enotdir (p : string) : exn :=
  NotADirectoryError ("[Errno 20] Not a directory: '" ++ p ++ "'").
Definition eisdir (p : string) : exn :=
  IsADirectoryError ("[Errno 21] Is a directory: '" ++ p ++ "'").

(** Where the resolution of [p] starts: the root for an absolute path,
    the working directory otherwise. *)
Definition start (fs : filesystem) (p : string) : list string :=
  if startswith p "/" then [] else cwd fs.

(** Path resolution, one component at a time from [cur].  Every component,
    the empty one a trailing slash leaves and [.] and [..] included, is
    looked up in [cur], which must be a directory that exists: ENOTDIR when
    it is a regular file, ENOENT when it is missing.  Only the node the
    last component names may be absent. *)
Fixpoint walk (p : string) (t : gmap (list string) inode)
    (cur comps : list string) : result (list string) :=
  match comps with
  | [] => Ok cur
  | c :: rest =>
      match node t cur with
      | Some Directory => walk p t (step cur c) rest
      | Some (RegularFile _) => Raise (enotdir p)
      | None => Raise (enoent p)
      end
  end.

(** The key a path names; the empty path names nothing. *)
Definition resolve (fs : filesystem) (p : string) : result (list string) :=
  if truthy p
  then walk p (tree fs) (start fs p) (split_char sep p)
  else Raise (enoent p).

(** [os.stat(p)], with its error swallowed *)
Definition lookup_path (fs : filesystem) (p : string) : option inode :=
  match resolve fs p with
  | Ok k => node (tree fs) k
  | Raise _ => None
  end.

(** [os.path.exists(p)] *)
Definition path_exists (fs : filesystem) (p : string) : bool :=
  match lookup_path fs p with Some _ => true | None => false end.

(** [os.path.isdir(p)] *)
Definition path_isdir (fs : filesystem) (p : string) : bool :=
  match lookup_path fs p with Some Directory => true | _ => false end.

(** The error of [os.makedirs] when a regular file is in the way; [seen]
    are the components up to the file, [rest] those after it.  The
    directories are made from the outermost missing one inwards, so the
    [mkdir] that fails is the one of the first name after the file: EEXIST
    for the whole of [p] when nothing but slashes follows the file, ENOTDIR
    otherwise, for the path up to that name, or for the whole of [p] when
    nothing but slashes follows that name. *)
Fixpoint blocked (p : string) (seen rest : list string) : exn :=
  match rest with
  | [] => eexist p
  | c :: rest' =>
      if String.eqb c "" then blocked p (seen ++ [c]) rest'
      else if forallb (String.eqb "") rest' then enotdir p
      else enotdir (String.concat "/" (seen ++ [c]))
  end.

(** Create every missing directory along [comps], from [cur]; [seen] are
    the components already passed. *)
Fixpoint mkdir_p (p : string) (t : gmap (list string) inode)
    (seen cur comps : list string) {struct comps} : result (gmap (list string) inode) :=
  match node t cur with
  | Some Directory =>
      match comps with
      | [] => Ok t
      | c :: rest =>
          let seen' := (seen ++ [c])%list in
          if String.eqb c "" || String.eqb c "." then mkdir_p p t seen' cur rest
          else if String.eqb c ".." then mkdir_p p t seen' (removelast cur) rest
          else
            let k := (cur ++ [c])%list in
            match t !! k with
            | Some Directory => mkdir_p p t seen' k rest
            | Some (RegularFile _) => Raise (blocked p seen' rest)
            | None => mkdir_p p (<[k := Directory]> t) seen' k rest
            end
      end
  | Some (RegularFile _) => Raise (enotdir p)
  | None => Raise (enoent p)
  end.

(** [os.makedirs(name, exist_ok=True)] *)
Definition makedirs (fs : filesystem) (name : string) : result filesystem :=
  if truthy name
  then
    match mkdir_p name (tree fs) [] (start fs name) (split_char sep name) with
    | Ok t => Ok (mkFs (cwd fs) t)
    | Raise e => Raise e
    end
  else Raise (enoent name).

Fixpoint child_name (dir key : list string) : option string :=
  match dir, key with
  | [], [n] => Some n
  | d :: dir', c :: key' => if String.eqb d c then child_name dir' key' else None
  | _, _ => None
  end.

(** [os.listdir(d)]: the names of the entries of [d], in the order the
    filesystem hands them out. *)
Definition listdir (fs : filesystem) (d : string) : result (list string) :=
  match resolve fs d with
  | Raise e => Raise e
  | Ok k =>
      match node (tree fs) k with
      | None => Raise (enoent d)
      | Some (RegularFile _) => Raise (enotdir d)
      | Some Directory => Ok (omap (fun e => child_name k (fst e)) (map_to_list (tree fs)))
      end
  end.

(** [open(p, 'r').read()] *)
Definition read_file (fs : filesystem) (p : string) : result string :=
  match resolve fs p with
  | Raise e => Raise e
  | Ok k =>
      match node (tree fs) k with
      | None => Raise (enoent p)
      | Some Directory => Raise (eisdir p)
      | Some (RegularFile data) => Ok data
      end
  end.

(** [open(p, 'w').write(data)], also the way the PDF writers store
    their output.  Opening for creation refuses a path that ends in a
    slash with EISDIR, once the directories before its last name are
    found. *)
Definition write_file (fs : filesystem) (p data : string) : result filesystem :=
  if endswith p "/"
  then
    match walk p (tree fs) (start fs p) (split_char sep (rstrip_char sep p)) with
    | Raise e => Raise e
    | Ok _ => Raise (eisdir p)
    end
  else
    match resolve fs p with
    | Raise e => Raise e
    | Ok k =>
        match node (tree fs) k with
        | Some Directory => Raise (eisdir p)
        | _ =>
            match node (tree fs) (removelast k) with
            | Some Directory => Ok (mkFs (cwd fs) (<[k := RegularFile data]> (tree fs)))
            | Some (RegularFile _) => Raise (enotdir p)
            | None => Raise (enoent p)
            end
        end
    end.

End os.

(** ** The world the program runs in, and its monad *)

Inductive level : Type := INFO | WARNING | ERROR.

Record world : Type := mkWorld {
  fs : filesystem;
  log : list (level * string);
  stdout : list string
}.

Definition M (A : Type) : Type := world -> result A * world.

#[global] Instance M_ret : MRet M := fun A a w => (Ok a, w).
#[global] Instance M_bind : MBind M := fun A B f c w =>
  match c w with
  | (Ok a, w') => f a w'
  | (Raise e, w') => (Raise e, w')
  end.

Definition raise {A : Type} (e : exn) : M A := fun w => (Raise e, w).

(** [try: c except Exception as e: handler(e)] *)
Definition try_except {A : Type} (c : M A) (handler : exn -> M A) : M A := fun w =>
  match c w with
  | (Ok a, w') => (Ok a, w')
  | (Raise e, w') => handler e w'
  end.

Definition get_fs : M filesystem := fun w => (Ok (fs w), w).

(** Run a filesystem operation that returns a new filesystem. *)
Definition update_fs (op : filesystem -> result filesystem) : M unit := fun w =>
  match op (fs w) with
  | Ok f => (Ok tt, mkWorld f (log w) (stdout w))
  | Raise e => (Raise e, w)
  end.

(** Run a filesystem operation that only reads. *)
Definition query_fs {A : Type} (op : filesystem -> result A) : M A := fun w => (op (fs w), w).

Definition logger (l : level) (msg : string) : M unit := fun w =>
  (Ok tt, mkWorld (fs w) (log w ++ [(l, msg)])%list (stdout w)).

Definition print (line : string) : M unit := fun w =>
  (Ok tt, mkWorld (fs w) (log w) (stdout w ++ [line])%list).

Definition os_makedirs (name : string) : M unit := update_fs (fun f => os.makedirs f name).
Definition os_path_exists (p : string) : M bool := query_fs (fun f => Ok (os.path_exists f p)).
Definition os_listdir (d : string) : M (list string) := query_fs (fun f => os.listdir f d).
Definition read_text (p : string) : M string := query_fs (fun f => os.read_file f p).
Definition write_bytes (p data : string) : M unit := update_fs (fun f => os.write_file f p data).

(** ** The libraries the program imports

    [bs4] document trees, ReportLab flowables, and the rendering engines.
    The engines are opaque: a record gives, for each, whether it can be
    imported and what it computes. *)

#[warnings="-register-all"]
Inductive PageElement : Type :=
  | Tag (name : string) (contents : list PageElement)
  | NavigableString (text : string)
  | Comment (text : string).

Module bs4.

Definition named (names : list string) (e : PageElement) : bool :=
  match e with
  | Tag n _ => existsb (String.eqb n) names
  | _ => false
  end.

(** [e.get_text()]: the strings below [e] in document order, joined with
    no separator; comments are not text. *)
Fixpoint get_text (e : PageElement) : string :=
  match e with
  | Tag _ cs => fold_right String.append "" (map get_text cs)
  | NavigableString s => s
  | Comment _ => ""
  end.

(** [for t in soup(names): t.decompose()]: every element with one of the
    names is removed from the tree, with all that it contains. *)
Fixpoint decompose_all (names : list string) (e : PageElement) : PageElement :=
  match e with
  | Tag n cs =>
      Tag n (flat_map (fun c => if named names c then [] else [decompose_all names c]) cs)
  | _ => e
  end.

(** The [BeautifulSoup] object: the root of the parsed document. *)
Definition BeautifulSoup (contents : list PageElement) : PageElement :=
  Tag "[document]" contents.

Definition first_some {A : Type} (l : list (option A)) : option A :=
  fold_right (fun o acc => match o with Some a => Some a | None => acc end) None l.

Fixpoint find_from (name : string) (e : PageElement) : option PageElement :=
  match e with
  | Tag n cs => if String.eqb n name then Some e else first_some (map (find_from name) cs)
  | _ => None
  end.

(** [soup.find(name)]: the first element with that name below the root,
    in document order. *)
Definition find (name : string) (soup : PageElement) : option PageElement :=
  match soup with
  | Tag _ cs => first_some (map (find_from name) cs)
  | _ => None
  end.

End bs4.

Inductive flowable : Type :=
  | Paragraph (text : string) (style : string)
  | Spacer (width height : nat).

Inductive pdf_method : Type := weasyprint | reportlab.

Record libraries : Type := mkLibraries {
  weasyprint_importable : bool;
  reportlab_importable : bool;
  bs4_importable : bool;
  (** [HTML(filename=..)] or [HTML(string=..)], rendered: the bytes of the
      PDF, or the exception the engine raises *)
  weasyprint_render : filesystem -> option string -> string -> result string;
  (** the top-level elements that [html.parser] finds in a text *)
  html_parser : string -> list PageElement;
  (** [SimpleDocTemplate(..).build(story)], rendered *)
  reportlab_build : list flowable -> result string
}.

Definition lift {A : Type} (r : result A) : M A := fun w => (r, w).

(** ** The module *)

Section Module_.
Context (L : libraries).

(** Lines 20-40: the backend is chosen once, when the module is imported. *)
Definition PDF_GENERATION_AVAILABLE : bool :=
  weasyprint_importable L || reportlab_importable L.

Definition PDF_METHOD : option pdf_method :=
  if weasyprint_importable L then Some weasyprint
  else if reportlab_importable L then Some reportlab
  else None.

Definition import_module : M unit :=
  match PDF_METHOD with
  | Some weasyprint => logger INFO "Using WeasyPrint for PDF generation"
  | Some reportlab => logger INFO "Using ReportLab for PDF generation"
  | None => logger ERROR "No PDF generation library available. Install weasyprint or reportlab."
  end.

Definition str_method (m : option pdf_method) : string :=
  match m with
  | Some weasyprint => "weasyprint"
  | Some reportlab => "reportlab"
  | None => "None"
  end.

Record HTMLToPDFConverter : Type := mkConverter { output_directory : string }.

Definition ensure_output_directory (self : HTMLToPDFConverter) : M unit :=
  os_makedirs (output_directory self);;
  logger INFO ("Output directory: " ++ output_directory self).

Definition init (output_directory : string) : M HTMLToPDFConverter :=
  let self := mkConverter output_directory in
  ensure_output_directory self;;
  mret self.

Definition _convert_with_weasyprint_file (self : HTMLToPDFConverter)
    (html_file_path output_pdf_path : string) : M string :=
  match PDF_METHOD with
  | Some weasyprint =>
      os_makedirs (os_path.dirname output_pdf_path);;
      source ← read_text html_file_path;
      f ← get_fs;
      pdf ← lift (weasyprint_render L f (Some html_file_path) source);
      write_bytes output_pdf_path pdf;;
      logger INFO ("✅ PDF generated successfully using WeasyPrint: " ++ output_pdf_path);;
      mret output_pdf_path
  | _ => raise (RuntimeError "WeasyPrint not available")
  end.

Definition _convert_with_weasyprint_string (self : HTMLToPDFConverter)
    (html_content output_pdf_path : string) : M string :=
  match PDF_METHOD with
  | Some weasyprint =>
      os_makedirs (os_path.dirname output_pdf_path);;
      f ← get_fs;
      pdf ← lift (weasyprint_render L f None html_content);
      write_bytes output_pdf_path pdf;;
      logger INFO ("✅ PDF generated successfully using WeasyPrint: " ++ output_pdf_path);;
      mret output_pdf_path
  | _ => raise (RuntimeError "WeasyPrint not available")
  end.

(** Lines 176-202: the story handed to ReportLab. *)
Definition title_block (soup : PageElement) : list flowable :=
  match bs4.find "title" soup with
  | Some title_tag => [Paragraph (bs4.get_text title_tag) "Title"; Spacer 1 12]
  | None => []
  end.

Definition paragraph_block (para : string) : list flowable :=
  if PyStr.truthy (PyStr.strip para)
  then [Paragraph (PyStr.strip para) "Normal"; Spacer 1 6]
  else [].

Definition build_story (html_content : string) : list flowable :=
  let soup := bs4.decompose_all ["script"; "style"]
                (bs4.BeautifulSoup (html_parser L html_content)) in
  let text_content := bs4.get_text soup in
  let paragraphs := PyStr.split_blank text_content in
  (title_block soup ++ flat_map paragraph_block paragraphs)%list.

Definition _convert_with_reportlab_string (self : HTMLToPDFConverter)
    (html_content output_pdf_path : string) : M string :=
  if negb (bs4_importable L)
  then raise (RuntimeError
    "Required libraries not available for ReportLab conversion: No module named 'bs4'")
  else
    os_makedirs (os_path.dirname output_pdf_path);;
    pdf ← lift (reportlab_build L (build_story html_content));
    write_bytes output_pdf_path pdf;;
    logger INFO ("✅ PDF generated successfully using ReportLab: " ++ output_pdf_path);;
    mret output_pdf_path.

Definition _convert_with_reportlab_file (self : HTMLToPDFConverter)
    (html_file_path output_pdf_path : string) : M string :=
  html_content ← read_text html_file_path;
  _convert_with_reportlab_string self html_content output_pdf_path.

Definition unavailable : exn :=
  RuntimeError "PDF generation not available. Install weasyprint or reportlab.".

Definition log_and_reraise (e : exn) : M string :=
  logger ERROR ("PDF conversion failed: " ++ str_exn e);;
  raise e.

Definition convert_html_file_to_pdf (self : HTMLToPDFConverter)
    (html_file_path : string) (output_pdf_path : option string) : M string :=
  if negb PDF_GENERATION_AVAILABLE then raise unavailable
  else
    found ← os_path_exists html_file_path;
    if negb found
    then raise (FileNotFoundError ("HTML file not found: " ++ html_file_path))
    else
      let output_pdf_path :=
        match output_pdf_path with
        | None =>
            let html_filename := pathlib.stem html_file_path in
            os_path.join (output_directory self) (html_filename ++ ".pdf")
        | Some p => p
        end in
      logger INFO ("Converting HTML file: " ++ html_file_path);;
      logger INFO ("Output PDF: " ++ output_pdf_path);;
      try_except
        (match PDF_METHOD with
         | Some weasyprint => _convert_with_weasyprint_file self html_file_path output_pdf_path
         | Some reportlab => _convert_with_reportlab_file self html_file_path output_pdf_path
         | None => raise (RuntimeError ("Unknown PDF method: " ++ str_method PDF_METHOD))
         end)
        log_and_reraise.

Definition convert_html_string_to_pdf (self : HTMLToPDFConverter)
    (html_content output_pdf_path : string) : M string :=
  if negb PDF_GENERATION_AVAILABLE then raise unavailable
  else
    logger INFO ("Converting HTML content (" ++ PyStr.of_nat (String.length html_content)
                 ++ " characters)");;
    logger INFO ("Output PDF: " ++ output_pdf_path);;
    try_except
      (match PDF_METHOD with
       | Some weasyprint => _convert_with_weasyprint_string self html_content output_pdf_path
       | Some reportlab => _convert_with_reportlab_string self html_content output_pdf_path
       | None => raise (RuntimeError ("Unknown PDF method: " ++ str_method PDF_METHOD))
       end)
      log_and_reraise.

(** A [dict] with string keys: assignment replaces the value of a key
    that is present, in place, and appends a new key at the end. *)
Fixpoint dict_set (d : list (string * string)) (k v : string) : list (string * string) :=
  match d with
  | [] => [(k, v)]
  | (k', v') :: d' => if String.eqb k' k then (k', v) :: d' else (k', v') :: dict_set d' k v
  end.

Definition is_html (f : string) : bool := PyStr.endswith (PyStr.lower f) ".html".

(** Lines 240-251: the body of the batch loop for one file. *)
Definition batch_step (self : HTMLToPDFConverter) (html_directory output_directory : string)
    (results : list (string * string)) (html_file : string) : M (list (string * string)) :=
  let html_path := os_path.join html_directory html_file in
  let pdf_filename := pathlib.stem html_file ++ ".pdf" in
  let pdf_path := os_path.join output_directory pdf_filename in
  try_except
    (converted_path ← convert_html_file_to_pdf self html_path (Some pdf_path);
     let results := dict_set results html_path converted_path in
     logger INFO ("✅ Converted: " ++ html_file ++ " -> " ++ pdf_filename);;
     mret results)
    (fun e =>
     logger ERROR ("❌ Failed to convert " ++ html_file ++ ": " ++ str_exn e);;
     mret (dict_set results html_path ("Error: " ++ str_exn e))).

Fixpoint batch_loop (self : HTMLToPDFConverter) (html_directory output_directory : string)
    (html_files : list string) (results : list (string * string)) : M (list (string * string)) :=
  match html_files with
  | [] => mret results
  | html_file :: rest =>
      results ← batch_step self html_directory output_directory results html_file;
      batch_loop self html_directory output_directory rest results
  end.

Definition batch_convert_html_files (self : HTMLToPDFConverter) (html_directory : string)
    (output_directory' : option string) : M (list (string * string)) :=
  let output_directory' :=
    match output_directory' with
    | None => output_directory self
    | Some d => d
    end in
  found ← os_path_exists html_directory;
  if negb found
  then raise (FileNotFoundError ("HTML directory not found: " ++ html_directory))
  else
    entries ← os_listdir html_directory;
    let html_files := List.filter is_html entries in
    match html_files with
    | [] =>
        logger WARNING ("No HTML files found in " ++ html_directory);;
        mret []
    | _ =>
        logger INFO ("Found " ++ PyStr.of_nat (length html_files) ++ " HTML files to convert");;
        batch_loop self html_directory output_directory' html_files []
    end.

(** *** The command line *)

(** The document of lines 258-408 is a fixed text that nothing below
    depends on. *)
Context (sample_html : string).

Definition create_sample_html_file (filename : string) : M string :=
  write_bytes filename sample_html;;
  logger INFO ("✅ Sample HTML file created: " ++ filename);;
  mret filename.

(** What [parser.parse_args()] returns. *)
Record Namespace : Type := mkArgs {
  html : option string;
  output : option string;
  batch : option string;
  output_dir : string;
  create_sample : bool
}.

Definition given (a : option string) : bool :=
  match a with
  | Some s => PyStr.truthy s
  | None => false
  end.

Definition is_error (v : string) : bool := PyStr.startswith v "Error:".

Definition sample_mode (converter : HTMLToPDFConverter) : M unit :=
  sample_file ← create_sample_html_file "sample_report.html";
  print ("📄 Sample HTML file created: " ++ sample_file);;
  try_except
    (pdf_path ← convert_html_file_to_pdf converter sample_file None;
     print ("🎉 Sample PDF generated: " ++ pdf_path))
    (fun e => print ("❌ Failed to generate sample PDF: " ++ str_exn e)).

Definition single_file_mode (converter : HTMLToPDFConverter) (args : Namespace) : M unit :=
  try_except
    (pdf_path ← convert_html_file_to_pdf converter (default "" (html args)) (output args);
     print ("🎉 PDF generated successfully: " ++ pdf_path))
    (fun e => print ("❌ Conversion failed: " ++ str_exn e)).

Fixpoint print_results (results : list (string * string)) : M unit :=
  match results with
  | [] => mret tt
  | (html_path, pdf_path) :: rest =>
      (if is_error pdf_path
       then print ("❌ " ++ os_path.basename html_path ++ ": " ++ pdf_path)
       else print ("✅ " ++ os_path.basename html_path ++ " -> " ++ os_path.basename pdf_path));;
      print_results rest
  end.

Definition batch_mode (converter : HTMLToPDFConverter) (args : Namespace) : M unit :=
  try_except
    (results ← batch_convert_html_files converter (default "" (batch args)) (Some (output_dir args));
     let success_count := length (List.filter (fun kv => negb (is_error (snd kv))) results) in
     let total_count := length results in
     print ("🎉 Batch conversion completed: " ++ PyStr.of_nat success_count ++ "/"
            ++ PyStr.of_nat total_count ++ " files converted successfully");;
     print_results results)
    (fun e => print ("❌ Batch conversion failed: " ++ str_exn e)).

Definition usage_lines : list string :=
  [ "No action specified. Use --help for usage information.";
    String PyStr.nl "Quick start:";
    "1. Create a sample: python html_to_pdf_converter.py --create-sample";
    "2. Convert HTML file: python html_to_pdf_converter.py --html sample_report.html";
    "3. Batch convert: python html_to_pdf_converter.py --batch /path/to/html/files" ].

Fixpoint print_all (lines : list string) : M unit :=
  match lines with
  | [] => mret tt
  | l :: rest => print l;; print_all rest
  end.

Definition usage_hint : M unit := print_all usage_lines.

Definition main (args : Namespace) : M unit :=
  converter ← init (output_dir args);
  if create_sample args then sample_mode converter
  else if given (html args) then single_file_mode converter args
  else if given (batch args) then batch_mode converter args
  else usage_hint.

End Module_.

(** ** A concrete instance for examples

    A parser for the well-nested, attribute-free fragment of HTML stands in
    for [html.parser]; the two engines write a recognisable text. *)

Module Demo.

Inductive token : Type :=
  | TOpen (name : string)
  | TClose (name : string)
  | TText (text : string).

Definition lt_char : ascii := ascii_of_nat 60.
Definition gt_char : ascii := ascii_of_nat 62.

Definition flush_text (cur : string) : list token :=
  if PyStr.truthy cur then [TText cur] else [].

Definition tag_token (cur : string) : token :=
  if PyStr.startswith cur "/" then TClose (PyStr.lower (String.substring 1 (String.length cur) cur))
  else TOpen (PyStr.lower cur).

(** [cur] holds the characters read since the last delimiter. *)
Fixpoint tokenize (in_tag : bool) (cur : string) (s : string) : list token :=
  match s with
  | "" => if in_tag then [] else flush_text cur
  | String c s' =>
      if in_tag then
        if PyStr.is_char c gt_char then tag_token cur :: tokenize false "" s'
        else tokenize true (cur ++ String c "") s'
      else
        if PyStr.is_char c lt_char then (flush_text cur ++ tokenize true "" s')%list
        else tokenize false (cur ++ String c "") s'
  end.

Definition close_frame (frame : string * list PageElement) (children : list PageElement)
    : list PageElement :=
  (snd frame ++ [Tag (fst frame) children])%list.

(** [stack] holds, for each open element, its name and the children its
    parent had when it was opened. *)
Fixpoint build (ts : list token) (stack : list (string * list PageElement))
    (cur : list PageElement) : list PageElement :=
  match ts with
  | [] => fold_left (fun children frame => close_frame frame children) stack cur
  | TText s :: ts' => build ts' stack (cur ++ [NavigableString s])%list
  | TOpen n :: ts' => build ts' ((n, cur) :: stack) []
  | TClose _ :: ts' =>
      match stack with
      | frame :: stack' => build ts' stack' (close_frame frame cur)
      | [] => build ts' [] cur
      end
  end.

Definition simple_html_parser (html_content : string) : list PageElement :=
  build (tokenize false "" html_content) [] [].

Fixpoint story_text (story : list flowable) : string :=
  match story with
  | [] => ""
  | Paragraph t _ :: rest => t ++ String PyStr.nl (story_text rest)
  | Spacer _ _ :: rest => story_text rest
  end.

Definition libs (weasy rlab : bool) : libraries :=
  mkLibraries weasy rlab true
    (fun _ _ source => Ok ("%PDF weasyprint " ++ source))
    simple_html_parser
    (fun story => Ok ("%PDF reportlab " ++ story_text story)).

(** A working directory [/home] holding a [site] directory with two HTML
    files, a text file and a subdirectory whose name ends in [.html]. *)
Definition fs0 : filesystem :=
  mkFs ["home"] (list_to_map
    [ (["home"], Directory);
      (["home"; "site"], Directory);
      (["home"; "site"; "a.html"], RegularFile "<title>T</title><p>x</p>");
      (["home"; "site"; "B.HTML"], RegularFile "<p>y</p>");
      (["home"; "site"; "c.txt"], RegularFile "z");
      (["home"; "site"; "d.html"], Directory) ]).

Definition w0 : world := mkWorld fs0 [] [].

Definition converter : HTMLToPDFConverter := mkConverter "./pdf_outputs".

Definition demo_html : string := "<title>Demo</title><p>A</p><p></p><p>B</p>".

End Demo.

(** * The vocabulary of the properties

    Notions the statements below are phrased in: well-formed filesystems,
    the entries and worlds of a batch run taken file by file, the order in
    which directories only ever grow, texts and stories, and the modes of
    the command line. *)

(** The string holds no slash. *)
Definition no_sep (s : string) : bool := negb (PyStr.contains s "/").

(** What can name a directory entry. *)
Definition valid_name (n : string) : bool :=
  PyStr.truthy n && no_sep n && negb (String.eqb n ".") && negb (String.eqb n "..").

(** Every entry of the tree is named by components that can be file
    names: not empty, without a slash, neither [.] nor [..]. *)
Definition fs_wf (f : filesystem) : bool :=
  forallb (fun kv => forallb valid_name (fst kv)) (map_to_list (tree f)).

(** The report value for a conversion outcome (lines 247 and 251). *)
Definition outcome (r : result string) : string :=
  match r with
  | Ok converted_path => converted_path
  | Raise e => "Error: " ++ str_exn e
  end.

(** The output path the loop computes for a file (lines 241-242). *)
Definition pdf_path_for (output_directory html_file : string) : string :=
  os_path.join output_directory (pathlib.stem html_file ++ ".pdf").

(** The conversion the loop body attempts for one file. *)
Definition convert_entry (L : libraries) (self : HTMLToPDFConverter)
    (html_directory output_directory html_file : string) : M string :=
  convert_html_file_to_pdf L self (os_path.join html_directory html_file)
    (Some (pdf_path_for output_directory html_file)).

(** The line the loop logs after a conversion (lines 248 and 250). *)
Definition step_log (html_file : string) (r : result string) : level * string :=
  match r with
  | Ok _ => (INFO, "✅ Converted: " ++ html_file ++ " -> " ++ (pathlib.stem html_file ++ ".pdf"))
  | Raise e => (ERROR, "❌ Failed to convert " ++ html_file ++ ": " ++ str_exn e)
  end.

(** The world one pass of the loop body leaves behind. *)
Definition after_file (L : libraries) (self : HTMLToPDFConverter)
    (html_directory output_directory : string) (w : world) (html_file : string) : world :=
  let '(r, w1) := convert_entry L self html_directory output_directory html_file w in
  mkWorld (fs w1) (log w1 ++ [step_log html_file r]) (stdout w1).

(** The world after the loop body has run on each of the files in turn. *)
Definition after_files (L : libraries) (self : HTMLToPDFConverter)
    (html_directory output_directory : string) (html_files : list string) (w : world) : world :=
  fold_left (after_file L self html_directory output_directory) html_files w.

(** The entry a file gets when its turn comes in world [w]. *)
Definition entry_for (L : libraries) (self : HTMLToPDFConverter)
    (html_directory output_directory : string) (w : world) (html_file : string)
    : string * string :=
  (os_path.join html_directory html_file,
   outcome (fst (convert_entry L self html_directory output_directory html_file w))).

(** The entries of the files, each taken in the world its predecessors
    left. *)
Fixpoint entries (L : libraries) (self : HTMLToPDFConverter)
    (html_directory output_directory : string) (html_files : list string) (w : world)
    : list (string * string) :=
  match html_files with
  | [] => []
  | f :: rest =>
      entry_for L self html_directory output_directory w f
      :: entries L self html_directory output_directory rest
           (after_file L self html_directory output_directory w f)
  end.

(** The world in which the loop starts: the listing has been logged. *)
Definition batch_start (html_directory : string) (html_files : list string) (w : world) : world :=
  mkWorld (fs w)
    (log w ++ [match html_files with
               | [] => (WARNING, "No HTML files found in " ++ html_directory)
               | _ => (INFO, "Found " ++ PyStr.of_nat (length html_files)
                             ++ " HTML files to convert")
               end])
    (stdout w).

(** The world with more lines in its log. *)
Definition add_log (w : world) (entries : list (level * string)) : world :=
  mkWorld (fs w) (log w ++ entries) (stdout w).

(** The second filesystem has the working directory of the first and
    every directory of the first. *)
Definition fs_le (f1 f2 : filesystem) : Prop :=
  cwd f1 = cwd f2 /\
  forall k, os.node (tree f1) k = Some Directory -> os.node (tree f2) k = Some Directory.

(** A computation preserves a relation between worlds when the world it
    leaves is always related to the one it started in. *)
Definition preserves (R : world -> world -> Prop) {A : Type} (c : M A) : Prop :=
  forall w, R w (snd (c w)).

Definition dirs_le (w w' : world) : Prop := fs_le (fs w) (fs w').

Definition same_stdout (w w' : world) : Prop := stdout w = stdout w'.

(** Induction on document trees, with the hypothesis for all children
    of an element. *)
Section PageElement_induction.
Context (P : PageElement -> Prop).
Context (Htag : forall n cs, Forall P cs -> P (Tag n cs)).
Context (Hstring : forall s, P (NavigableString s)).
Context (Hcomment : forall s, P (Comment s)).

Fixpoint PageElement_nested_ind (e : PageElement) : P e :=
  match e with
  | Tag n cs =>
      Htag n cs
        ((fix children (l : list PageElement) : Forall P l :=
            match l with
            | [] => List.Forall_nil P
            | c :: l' => List.Forall_cons P c l' (PageElement_nested_ind c) (children l')
            end) cs)
  | NavigableString s => Hstring s
  | Comment s => Hcomment s
  end.

End PageElement_induction.

(** The text of a tree outside the elements with the given names. *)
Fixpoint text_outside (names : list string) (e : PageElement) : string :=
  match e with
  | Tag n cs =>
      if existsb (String.eqb n) names then ""
      else fold_right String.append "" (map (text_outside names) cs)
  | NavigableString s => s
  | Comment _ => ""
  end.

(** Whether a tree is, or holds, an element with one of the names. *)
Fixpoint has_named (names : list string) (e : PageElement) : bool :=
  match e with
  | Tag n cs => existsb (String.eqb n) names || existsb (has_named names) cs
  | _ => false
  end.

(** Some paragraph of the story holds the text. *)
Definition story_mentions (story : list flowable) (s : string) : bool :=
  existsb (fun fl => match fl with
                     | Paragraph text _ => PyStr.contains text s
                     | Spacer _ _ => false
                     end) story.

(** What [html.parser] makes of
    [<title>Demo</title><p>A</p><p></p><p>B</p>]. *)
Definition demo_contents : list PageElement :=
  [ Tag "title" [NavigableString "Demo"];
    Tag "p" [NavigableString "A"];
    Tag "p" [];
    Tag "p" [NavigableString "B"] ].

(** The body of the story as C7 words it: the title is set apart, the
    text that remains is split at blank lines, and every piece that is not
    empty becomes a paragraph. *)
Definition stated_body (parsed : PageElement) : list flowable :=
  flat_map (fun para => if PyStr.truthy para then [Paragraph para "Normal"; Spacer 1 6] else [])
    (PyStr.split_blank (text_outside ["script"; "style"; "title"] parsed)).

Definition blank_line : string := String PyStr.nl (String PyStr.nl "").

(** Two paragraphs with a blank line, a line holding one space, and
    another blank line between them. *)
Definition spaced_html : string :=
  "<p>A</p>" ++ blank_line ++ " " ++ blank_line ++ "<p>B</p>".

Inductive mode : Type := SampleCreation | SingleFile | BatchConversion | NoOp.

(** First match wins; an option counts when its value is not empty. *)
Definition selected_mode (args : Namespace) : mode :=
  if create_sample args then SampleCreation
  else if given (html args) then SingleFile
  else if given (batch args) then BatchConversion
  else NoOp.

(** The line the batch mode prints for one entry of the report. *)
Definition result_line (kv : string * string) : string :=
  if is_error (snd kv)
  then "❌ " ++ os_path.basename (fst kv) ++ ": " ++ snd kv
  else "✅ " ++ os_path.basename (fst kv) ++ " -> " ++ os_path.basename (snd kv).

Definition announces (line prefix : string) : Prop := PyStr.startswith line prefix = true.

(** What each mode prints.  Sample creation prints nothing when writing
    the sample file raises. *)
Definition mode_output (m : mode) (printed : list string) : Prop :=
  match m with
  | SampleCreation =>
      printed = [] \/
      exists line,
        printed = ["📄 Sample HTML file created: sample_report.html"; line] /\
        (announces line "🎉 Sample PDF generated: " \/
         announces line "❌ Failed to generate sample PDF: ")
  | SingleFile =>
      exists line,
        printed = [line] /\
        (announces line "🎉 PDF generated successfully: " \/
         announces line "❌ Conversion failed: ")
  | BatchConversion =>
      exists line rest,
        printed = line :: rest /\
        (announces line "🎉 Batch conversion completed: " \/
         announces line "❌ Batch conversion failed: ")
  | NoOp => printed = usage_lines
  end.

(** The string holds no occurrence of the character. *)
Fixpoint lacks (d : ascii) (s : string) : bool :=
  match s with
  | "" => true
  | String c s' => negb (PyStr.is_char c d) && lacks d s'
  end.

(** What the selected engine makes of a text, in a filesystem. *)
Definition engine_output (L : libraries) (f : filesystem) (html_content : string)
    : result string :=
  match PDF_METHOD L with
  | Some weasyprint => weasyprint_render L f None html_content
  | Some reportlab => reportlab_build L (build_story L html_content)
  | None => Raise unavailable
  end.

(** The error of lines 169-171. *)
Definition bs4_missing : exn :=
  RuntimeError "Required libraries not available for ReportLab conversion: No module named 'bs4'".

(** The line a backend logs when it has written the PDF. *)
Definition success_log (L : libraries) (output_pdf_path : string) : level * string :=
  match PDF_METHOD L with
  | Some reportlab => (INFO, "✅ PDF generated successfully using ReportLab: " ++ output_pdf_path)
  | _ => (INFO, "✅ PDF generated successfully using WeasyPrint: " ++ output_pdf_path)
  end.




(** * Properties *)

(** ** Running the monad *)

Lemma run_bind {A B : Type} (c : M A) (k : A -> M B) (w : world) :
  (c ≫= k) w = match c w with
               | (Ok a, w') => k a w'
               | (Raise e, w') => (Raise e, w')
               end.
Proof. reflexivity. Qed.

Lemma run_ret {A : Type} (a : A) (w : world) : (mret a : M A) w = (Ok a, w).
Proof. reflexivity. Qed.

Lemma run_logger (l : level) (msg : string) (w : world) :
  logger l msg w = (Ok tt, mkWorld (fs w) (log w ++ [(l, msg)]) (stdout w)).
Proof. reflexivity. Qed.

Lemma run_print (line : string) (w : world) :
  print line w = (Ok tt, mkWorld (fs w) (log w) (stdout w ++ [line])).
Proof. reflexivity. Qed.

Lemma run_exists (p : string) (w : world) :
  os_path_exists p w = (Ok (os.path_exists (fs w) p), w).
Proof. reflexivity. Qed.

Lemma available_method (L : libraries) :
  PDF_GENERATION_AVAILABLE L = false <-> PDF_METHOD L = None.
Proof.
  unfold PDF_GENERATION_AVAILABLE, PDF_METHOD.
  destruct (weasyprint_importable L), (reportlab_importable L); simpl; split; congruence.
Qed.

(** ** Single conversions: the guards *)

(** C3. With neither backend importable, both conversion entry points
    raise the [RuntimeError] that names the missing libraries, whatever
    their arguments, and leave the world as it was. *)
Theorem no_backend_unavailable (L : libraries) (self : HTMLToPDFConverter)
    (html_file_path html_content output_path : string) (output_pdf_path : option string)
    (w : world) :
  weasyprint_importable L = false ->
  reportlab_importable L = false ->
  PDF_METHOD L = None /\
  convert_html_file_to_pdf L self html_file_path output_pdf_path w
    = (Raise (RuntimeError "PDF generation not available. Install weasyprint or reportlab."), w) /\
  convert_html_string_to_pdf L self html_content output_path w
    = (Raise (RuntimeError "PDF generation not available. Install weasyprint or reportlab."), w).
Proof.
  intros Hw Hr.
  unfold convert_html_file_to_pdf, convert_html_string_to_pdf,
    PDF_METHOD, PDF_GENERATION_AVAILABLE.
  rewrite Hw, Hr. simpl. auto.
Qed.

Lemma no_backend_unavailable_witness :
  PDF_METHOD (Demo.libs false false) = None /\
  convert_html_file_to_pdf (Demo.libs false false) Demo.converter "site/a.html" None Demo.w0
    = (Raise (RuntimeError "PDF generation not available. Install weasyprint or reportlab."),
       Demo.w0) /\
  convert_html_string_to_pdf (Demo.libs false false) Demo.converter "<p>x</p>" "out/x.pdf" Demo.w0
    = (Raise (RuntimeError "PDF generation not available. Install weasyprint or reportlab."),
       Demo.w0).
Proof.
  apply (no_backend_unavailable (Demo.libs false false)); reflexivity.
Defined.

(** The existence guard of lines 71-72, and the availability guard
    before it. *)
Lemma convert_file_missing (L : libraries) (self : HTMLToPDFConverter)
    (html_file_path : string) (output_pdf_path : option string) (w : world) :
  os.path_exists (fs w) html_file_path = false ->
  convert_html_file_to_pdf L self html_file_path output_pdf_path w
    = (Raise (if PDF_GENERATION_AVAILABLE L
              then FileNotFoundError ("HTML file not found: " ++ html_file_path)
              else unavailable), w).
Proof.
  intros Hmissing. unfold convert_html_file_to_pdf.
  destruct (PDF_GENERATION_AVAILABLE L); simpl; [|reflexivity].
  rewrite run_bind, run_exists, Hmissing. reflexivity.
Qed.

(** C1, as amended. A path that does not exist makes
    [convert_html_file_to_pdf] raise [FileNotFoundError] when a backend
    was selected and the unavailability error when none was; in both cases
    nothing is logged or written, so the error never comes out of a
    backend, and the output path plays no part. *)
Theorem missing_file_not_found (L : libraries) (self : HTMLToPDFConverter)
    (html_file_path : string) (output_pdf_path : option string) (w : world) :
  os.path_exists (fs w) html_file_path = false ->
  convert_html_file_to_pdf L self html_file_path output_pdf_path w
    = (Raise (if PDF_GENERATION_AVAILABLE L
              then FileNotFoundError ("HTML file not found: " ++ html_file_path)
              else RuntimeError "PDF generation not available. Install weasyprint or reportlab."),
       w).
Proof. apply convert_file_missing. Qed.

Lemma missing_file_not_found_witness :
  convert_html_file_to_pdf (Demo.libs true false) Demo.converter "site/missing.html"
    (Some "out/x.pdf") Demo.w0
    = (Raise (FileNotFoundError "HTML file not found: site/missing.html"), Demo.w0).
Proof.
  apply (missing_file_not_found (Demo.libs true false)). vm_compute. reflexivity.
Defined.

(** C1, as stated, fails when no backend was selected: the availability
    guard comes first, and the missing file is reported as unavailability. *)
Lemma missing_file_without_backend :
  os.path_exists Demo.fs0 "site/missing.html" = false /\
  fst (convert_html_file_to_pdf (Demo.libs false false) Demo.converter "site/missing.html"
         None Demo.w0)
    = Raise (RuntimeError "PDF generation not available. Install weasyprint or reportlab.") /\
  forall msg, fst (convert_html_file_to_pdf (Demo.libs false false) Demo.converter
                     "site/missing.html" None Demo.w0)
                <> Raise (FileNotFoundError msg).
Proof.
  split; [vm_compute; reflexivity|]. split; [reflexivity|]. intros msg. discriminate.
Qed.

(** What does not exist.  A path is looked up one component at a time:
    a regular file followed by a slash, and [..] after a missing name or
    after a regular file, name nothing, and the conversion reports them as
    not found. *)
Example paths_that_name_nothing :
  map (os.path_exists Demo.fs0)
      ["site/a.html"; "site/../site/./a.html"; "site/";
       "site/a.html/"; "nosuchdir/../site/a.html"; "site/c.txt/../a.html"]
    = [true; true; true; false; false; false] /\
  os.read_file Demo.fs0 "site/a.html/" = Raise (os.enotdir "site/a.html/") /\
  os.read_file Demo.fs0 "nosuchdir/../site/a.html"
    = Raise (os.enoent "nosuchdir/../site/a.html") /\
  convert_html_file_to_pdf (Demo.libs true true) Demo.converter "site/a.html/" None Demo.w0
    = (Raise (FileNotFoundError "HTML file not found: site/a.html/"), Demo.w0).
Proof. vm_compute. repeat split; reflexivity. Qed.

(** What a regular file in the way does to [os.makedirs], and a trailing
    slash to writing. *)
Example regular_file_in_the_way :
  os.makedirs Demo.fs0 "site/c.txt" = Raise (os.eexist "site/c.txt") /\
  os.makedirs Demo.fs0 "site/c.txt/" = Raise (os.eexist "site/c.txt/") /\
  os.makedirs Demo.fs0 "site/c.txt/x/y" = Raise (os.enotdir "site/c.txt/x") /\
  os.write_file Demo.fs0 "site/new/" "x" = Raise (os.eisdir "site/new/") /\
  os.write_file Demo.fs0 "nosuchdir/new" "x" = Raise (os.enoent "nosuchdir/new").
Proof. vm_compute. repeat split; reflexivity. Qed.

(** ** Path arithmetic *)

Lemma no_sep_cons (c : ascii) (s : string) :
  no_sep (String c s) = negb (PyStr.is_char c PyStr.sep) && no_sep s.
Proof.
  unfold no_sep, PyStr.sep. simpl. rewrite andb_true_r.
  destruct (PyStr.is_char c "/"); reflexivity.
Qed.

Lemma no_sep_app (a b : string) : no_sep (a ++ b) = no_sep a && no_sep b.
Proof.
  induction a as [|c a IH]; [reflexivity|].
  change (String c a ++ b) with (String c (a ++ b)).
  rewrite !no_sep_cons, IH. apply andb_assoc.
Qed.

Lemma cons_head_no_sep (c : ascii) (l : list string) :
  PyStr.is_char c PyStr.sep = false ->
  Forall (fun x => no_sep x = true) l ->
  Forall (fun x => no_sep x = true) (PyStr.cons_head c l).
Proof.
  intros Hc Hl. destruct Hl as [|x xs Hx Hxs]; simpl.
  - constructor; [|constructor]. rewrite no_sep_cons, Hc. reflexivity.
  - constructor; [|assumption]. rewrite no_sep_cons, Hc, Hx. reflexivity.
Qed.

Lemma split_char_no_sep (s : string) :
  Forall (fun x => no_sep x = true) (PyStr.split_char PyStr.sep s).
Proof.
  induction s as [|c s IH]; simpl.
  - constructor; [reflexivity|constructor].
  - destruct (PyStr.is_char c PyStr.sep) eqn:Hc.
    + constructor; [reflexivity|assumption].
    + apply cons_head_no_sep; assumption.
Qed.

Lemma rpartition_app (d : ascii) (s : string) :
  s = fst (PyStr.rpartition d s) ++ snd (PyStr.rpartition d s).
Proof.
  induction s as [|c s IH]; [reflexivity|].
  simpl. destruct (PyStr.rpartition d s) as [h t]. simpl in IH.
  destruct (PyStr.truthy h) eqn:Hh; simpl.
  - change (String c s = String c (h ++ t)). now f_equal.
  - destruct h; [|discriminate]. simpl in IH. subst s.
    destruct (PyStr.is_char c d); reflexivity.
Qed.

Lemma drop_last_no_sep (s : string) : no_sep s = true -> no_sep (PyStr.drop_last s) = true.
Proof.
  induction s as [|c s IH]; [reflexivity|].
  rewrite no_sep_cons. intros [Hc Hs]%andb_true_iff.
  simpl. destruct s as [|c' s']; [reflexivity|].
  rewrite no_sep_cons, Hc. simpl. apply IH, Hs.
Qed.

Lemma last_Forall {A : Type} (P : A -> Prop) (l : list A) (d : A) :
  Forall P l -> P d -> P (List.last l d).
Proof.
  intros Hl Hd. induction Hl as [|x xs Hx Hxs IH]; [exact Hd|].
  simpl. destruct xs; [exact Hx|exact IH].
Qed.

Lemma filter_Forall {A : Type} (P : A -> Prop) (f : A -> bool) (l : list A) :
  Forall P l -> Forall P (List.filter f l).
Proof.
  induction 1 as [|x xs Hx Hxs IH]; simpl; [constructor|].
  destruct (f x); [constructor|]; assumption.
Qed.

Lemma name_no_sep (p : string) : no_sep (pathlib.name p) = true.
Proof.
  unfold pathlib.name, pathlib.parts.
  apply (last_Forall (fun x => no_sep x = true)); [|reflexivity].
  apply filter_Forall, split_char_no_sep.
Qed.

Lemma stem_no_sep (p : string) : no_sep (pathlib.stem p) = true.
Proof.
  unfold pathlib.stem.
  pose proof (name_no_sep p) as Hn.
  pose proof (rpartition_app PyStr.dot (pathlib.name p)) as Happ.
  destruct (PyStr.rpartition PyStr.dot (pathlib.name p)) as [h t]. simpl in Happ.
  destruct ((2 <=? String.length h)%nat && PyStr.truthy t); [|assumption].
  rewrite Happ, no_sep_app in Hn. apply andb_true_iff in Hn as [Hh _].
  apply drop_last_no_sep, Hh.
Qed.

Lemma no_sep_not_absolute (s x : string) :
  no_sep s = true -> PyStr.startswith x "/" = false -> PyStr.startswith (s ++ x) "/" = false.
Proof.
  intros Hs Hx. destruct s as [|c s]; [exact Hx|].
  rewrite no_sep_cons in Hs. apply andb_true_iff in Hs as [Hc _].
  simpl. unfold PyStr.sep in Hc.
  destruct (PyStr.is_char c "/"); [discriminate|reflexivity].
Qed.

(** Joining a directory with a name that holds no slash appends the name,
    after one slash unless the directory is empty or already ends in one. *)
Lemma join_name (d n x : string) :
  no_sep n = true -> PyStr.startswith x "/" = false ->
  os_path.join d (n ++ x)
    = d ++ (if negb (PyStr.truthy d) || PyStr.endswith d "/" then "" else "/") ++ n ++ x.
Proof.
  intros Hn Hx. unfold os_path.join.
  rewrite (no_sep_not_absolute n x Hn Hx).
  destruct (negb (PyStr.truthy d) || PyStr.endswith d "/"); reflexivity.
Qed.

(** ** What a conversion returns *)

(** Case analysis on the next computation that is run in a hypothesis. *)
Ltac run_in H :=
  repeat (rewrite run_bind in H;
          match type of H with
          | context [match ?c ?w with _ => _ end] =>
              let r := fresh "r" in let w1 := fresh "w" in
              destruct (c w) as [[r|r] w1]; try discriminate H
          end).

Lemma weasyprint_file_returns (L : libraries) (self : HTMLToPDFConverter)
    (html_file_path output_pdf_path r : string) (w w' : world) :
  _convert_with_weasyprint_file L self html_file_path output_pdf_path w = (Ok r, w') ->
  r = output_pdf_path.
Proof.
  unfold _convert_with_weasyprint_file.
  destruct (PDF_METHOD L) as [[]|]; try discriminate.
  intros H. run_in H. rewrite run_ret in H. congruence.
Qed.

Lemma weasyprint_string_returns (L : libraries) (self : HTMLToPDFConverter)
    (html_content output_pdf_path r : string) (w w' : world) :
  _convert_with_weasyprint_string L self html_content output_pdf_path w = (Ok r, w') ->
  r = output_pdf_path.
Proof.
  unfold _convert_with_weasyprint_string.
  destruct (PDF_METHOD L) as [[]|]; try discriminate.
  intros H. run_in H. rewrite run_ret in H. congruence.
Qed.

Lemma reportlab_string_returns (L : libraries) (self : HTMLToPDFConverter)
    (html_content output_pdf_path r : string) (w w' : world) :
  _convert_with_reportlab_string L self html_content output_pdf_path w = (Ok r, w') ->
  r = output_pdf_path.
Proof.
  unfold _convert_with_reportlab_string.
  destruct (bs4_importable L); simpl; try discriminate.
  intros H. run_in H. rewrite run_ret in H. congruence.
Qed.

Lemma reportlab_file_returns (L : libraries) (self : HTMLToPDFConverter)
    (html_file_path output_pdf_path r : string) (w w' : world) :
  _convert_with_reportlab_file L self html_file_path output_pdf_path w = (Ok r, w') ->
  r = output_pdf_path.
Proof.
  unfold _convert_with_reportlab_file. rewrite run_bind.
  destruct (read_text html_file_path w) as [[src|e] w1]; [|discriminate].
  apply reportlab_string_returns.
Qed.

(** The two outcomes of the guarded backend call of lines 83-92. *)
Lemma try_backend (c : M string) (out : string) (w : world) :
  (forall r w', c w = (Ok r, w') -> r = out) ->
  (exists w', try_except c log_and_reraise w = (Ok out, w')) \/
  (exists e w', try_except c log_and_reraise w = (Raise e, w') /\
     last (log w') = Some (ERROR, "PDF conversion failed: " ++ str_exn e)).
Proof.
  intros Hret. unfold try_except.
  destruct (c w) as [[r|e] w1] eqn:E.
  - left. exists w1. rewrite (Hret r w1 eq_refl). reflexivity.
  - right. exists e, (mkWorld (fs w1) (log w1 ++ [(ERROR, "PDF conversion failed: " ++ str_exn e)]) (stdout w1)).
    split; [reflexivity|]. simpl. apply last_snoc.
Qed.

(** What [convert_html_file_to_pdf] does once both guards are passed. *)
Lemma convert_file_guarded (L : libraries) (self : HTMLToPDFConverter)
    (html_file_path : string) (output_pdf_path : option string) (w : world) :
  PDF_GENERATION_AVAILABLE L = true ->
  os.path_exists (fs w) html_file_path = true ->
  let out := match output_pdf_path with
             | None => os_path.join (output_directory self) (pathlib.stem html_file_path ++ ".pdf")
             | Some p => p
             end in
  (exists w', convert_html_file_to_pdf L self html_file_path output_pdf_path w = (Ok out, w')) \/
  (exists e w', convert_html_file_to_pdf L self html_file_path output_pdf_path w = (Raise e, w') /\
     last (log w') = Some (ERROR, "PDF conversion failed: " ++ str_exn e)).
Proof.
  intros Ha He out. unfold convert_html_file_to_pdf.
  rewrite Ha. change (negb true) with false. cbv iota.
  rewrite run_bind, run_exists, He. change (negb true) with false. cbv iota. fold out.
  rewrite run_bind, run_logger, run_bind, run_logger.
  apply try_backend. intros r w'.
  destruct (PDF_METHOD L) as [[]|].
  - apply weasyprint_file_returns.
  - apply reportlab_file_returns.
  - discriminate.
Qed.

(** ** Directory listings *)

Lemma child_name_spec (k key : list string) (n : string) :
  os.child_name k key = Some n <-> key = (k ++ [n])%list.
Proof.
  revert key. induction k as [|d k IH]; intros key; simpl.
  - destruct key as [|c [|c' key]]; split; intros H; try discriminate; congruence.
  - destruct key as [|c key]; [split; discriminate|].
    destruct (String.eqb_spec d c) as [->|Hne].
    + rewrite IH. split; congruence.
    + split; [discriminate|]. intros H. congruence.
Qed.

Lemma listing_NoDup (k : list string) (l : list (list string * inode)) :
  NoDup (l.*1) -> NoDup (omap (fun e => os.child_name k (fst e)) l).
Proof.
  induction l as [|e l IH]; simpl; intros Hnd; [constructor|].
  apply NoDup_cons in Hnd as [Hfresh Hnd].
  destruct (os.child_name k (fst e)) as [n|] eqn:E; [|auto].
  constructor; [|auto].
  intros (e' & Hin & E')%list_elem_of_omap.
  apply child_name_spec in E, E'.
  apply Hfresh. rewrite E, <- E'. apply list_elem_of_fmap. eauto.
Qed.

Lemma listdir_names (f : filesystem) (d : string) (names : list string) :
  fs_wf f = true ->
  os.listdir f d = Ok names ->
  NoDup names /\ Forall (fun n => no_sep n = true) names.
Proof.
  intros Hwf. unfold os.listdir.
  destruct (os.resolve f d) as [k|]; [|discriminate].
  destruct (os.node (tree f) k) as [[]|]; try discriminate.
  intros [= <-]. split.
  - apply listing_NoDup, NoDup_fst_map_to_list.
  - apply Forall_forall. intros n (e & Hin & E)%list_elem_of_omap.
    apply child_name_spec in E.
    unfold fs_wf in Hwf. rewrite forallb_forall in Hwf.
    apply list_elem_of_In in Hin. specialize (Hwf e Hin).
    rewrite E, forallb_app in Hwf. simpl in Hwf.
    unfold valid_name in Hwf.
    repeat (apply andb_true_iff in Hwf as [Hwf ?]).
    apply andb_true_iff in H as [H _].
    repeat (apply andb_true_iff in H as [H ?]). assumption.
Qed.

Lemma isdir_listdir (f : filesystem) (d : string) :
  os.path_isdir f d = true -> exists names, os.listdir f d = Ok names.
Proof.
  unfold os.path_isdir, os.lookup_path, os.listdir.
  destruct (os.resolve f d) as [k|]; [|discriminate].
  destruct (os.node (tree f) k) as [[]|]; try discriminate. eauto.
Qed.

Lemma listdir_exists (f : filesystem) (d : string) (names : list string) :
  os.listdir f d = Ok names -> os.path_isdir f d = true /\ os.path_exists f d = true.
Proof.
  unfold os.path_isdir, os.path_exists, os.lookup_path, os.listdir.
  destruct (os.resolve f d) as [k|]; [|discriminate].
  destruct (os.node (tree f) k) as [[]|]; try discriminate. auto.
Qed.

Lemma string_app_inv_head (a b c : string) : a ++ b = a ++ c -> b = c.
Proof.
  induction a as [|x a IH]; [auto|].
  intros H. apply IH. change (String x (a ++ b) = String x (a ++ c)) in H. congruence.
Qed.

Lemma join_no_sep (d n : string) :
  no_sep n = true ->
  os_path.join d n
    = d ++ (if negb (PyStr.truthy d) || PyStr.endswith d "/" then "" else "/") ++ n.
Proof.
  intros Hn. unfold os_path.join.
  assert (PyStr.startswith n "/" = false) as ->.
  { destruct n as [|c n]; [reflexivity|]. rewrite no_sep_cons in Hn.
    apply andb_true_iff in Hn as [Hc _]. unfold PyStr.sep in Hc. simpl.
    destruct (PyStr.is_char c "/"); [discriminate|reflexivity]. }
  destruct (negb (PyStr.truthy d) || PyStr.endswith d "/"); reflexivity.
Qed.

Lemma join_inj (d a b : string) :
  no_sep a = true -> no_sep b = true -> os_path.join d a = os_path.join d b -> a = b.
Proof.
  intros Ha Hb. rewrite (join_no_sep d a Ha), (join_no_sep d b Hb).
  intros H. apply string_app_inv_head in H. apply string_app_inv_head in H. exact H.
Qed.

Lemma keys_NoDup (d : string) (names : list string) :
  NoDup names -> Forall (fun n => no_sep n = true) names ->
  NoDup (os_path.join d <$> names).
Proof.
  intros Hnd Hns. apply NoDup_fmap_2_strong; [|exact Hnd].
  intros a b Ha Hb. rewrite Forall_forall in Hns.
  apply join_inj; apply Hns; assumption.
Qed.

(** ** The report dictionary *)

Lemma dict_set_fresh (d : list (string * string)) (k v : string) :
  k ∉ d.*1 -> dict_set d k v = (d ++ [(k, v)])%list.
Proof.
  induction d as [|[k' v'] d IH]; simpl; intros Hk; [reflexivity|].
  apply not_elem_of_cons in Hk as [Hne Hk].
  destruct (String.eqb_spec k' k) as [->|_]; [congruence|].
  now rewrite IH.
Qed.

Lemma dict_set_keys_NoDup (d : list (string * string)) (k v : string) :
  NoDup (d.*1) -> NoDup ((dict_set d k v).*1).
Proof.
  induction d as [|[k' v'] d IH]; simpl; intros Hnd.
  - constructor; [apply not_elem_of_nil|constructor].
  - destruct (String.eqb_spec k' k) as [->|Hne]; [exact Hnd|].
    apply NoDup_cons in Hnd as [Hfresh Hnd]. simpl. constructor; [|auto].
    clear IH Hnd. induction d as [|[k2 v2] d IH]; simpl.
    + intros [?|[]%not_elem_of_nil]%elem_of_cons. congruence.
    + simpl in Hfresh. apply not_elem_of_cons in Hfresh as [Hne2 Hfresh].
      destruct (String.eqb_spec k2 k) as [->|_]; simpl.
      * intros [?|?]%elem_of_cons; [congruence|contradiction].
      * intros [?|?]%elem_of_cons; [congruence|]. now apply IH.
Qed.

(** ** The batch loop, file by file *)

Section Batch.
Context (L : libraries) (self : HTMLToPDFConverter) (d o : string).

Lemma batch_step_run (results : list (string * string)) (f : string) (w : world) :
  batch_step L self d o results f w
    = (Ok (dict_set results (os_path.join d f) (snd (entry_for L self d o w f))),
       after_file L self d o w f).
Proof.
  unfold batch_step, try_except, after_file, entry_for, convert_entry, pdf_path_for.
  rewrite run_bind.
  destruct (convert_html_file_to_pdf L self _ _ w) as [[p|e] w1]; reflexivity.
Qed.

Lemma entries_keys (files : list string) (w : world) :
  (entries L self d o files w).*1 = os_path.join d <$> files.
Proof.
  revert w. induction files as [|f files IH]; intros w; simpl; [reflexivity|].
  now rewrite IH.
Qed.

Lemma entries_length (files : list string) (w : world) :
  length (entries L self d o files w) = length files.
Proof.
  revert w. induction files as [|f files IH]; intros w; simpl; [reflexivity|].
  now rewrite IH.
Qed.

(** The loop never raises, and when the keys are new and distinct its
    dictionary grows by one entry per file, in order. *)
Lemma batch_loop_run (files : list string) (results : list (string * string)) (w : world) :
  NoDup (results.*1 ++ (os_path.join d <$> files)) ->
  batch_loop L self d o files results w
    = (Ok (results ++ entries L self d o files w)%list, after_files L self d o files w).
Proof.
  revert results w. induction files as [|f files IH]; intros results w Hnd; simpl.
  - now rewrite app_nil_r.
  - rewrite run_bind, batch_step_run.
    rewrite dict_set_fresh.
    + rewrite IH.
      * now rewrite <- app_assoc.
      * rewrite fmap_app. simpl. rewrite <- app_assoc. exact Hnd.
    + apply NoDup_app in Hnd as (_ & Hdisj & _).
      intros Hin. apply (Hdisj _ Hin). simpl. apply elem_of_cons. now left.
Qed.

Lemma entries_lookup (files : list string) (w : world) (i : nat) (f : string) :
  files !! i = Some f ->
  entries L self d o files w !! i
    = Some (entry_for L self d o (after_files L self d o (take i files) w) f).
Proof.
  revert w i. induction files as [|f' files IH]; intros w i Hi; [discriminate|].
  destruct i as [|i]; simpl in *.
  - now injection Hi as ->.
  - now apply IH.
Qed.

(** What [batch_convert_html_files] does on a listable directory. *)
Lemma batch_run (output_directory' : option string) (names : list string) (w : world) :
  o = default (output_directory self) output_directory' ->
  os.listdir (fs w) d = Ok names ->
  NoDup (os_path.join d <$> List.filter is_html names) ->
  let files := List.filter is_html names in
  let start := mkWorld (fs w)
    (log w ++ [match files with
               | [] => (WARNING, "No HTML files found in " ++ d)
               | _ => (INFO, "Found " ++ PyStr.of_nat (length files) ++ " HTML files to convert")
               end]) (stdout w) in
  batch_convert_html_files L self d output_directory' w
    = (Ok (entries L self d o files start), after_files L self d o files start).
Proof.
  intros Ho Hls Hnd files start. unfold batch_convert_html_files.
  rewrite run_bind, run_exists.
  destruct (listdir_exists _ _ _ Hls) as [_ ->]. change (negb true) with false. cbv iota.
  rewrite run_bind. unfold os_listdir, query_fs. rewrite Hls.
  fold files. subst start. destruct files as [|f files'] eqn:E.
  - reflexivity.
  - rewrite run_bind, run_logger.
    assert (match output_directory' with Some d0 => d0 | None => output_directory self end = o)
      as -> by (subst o; now destruct output_directory').
    rewrite batch_loop_run; [reflexivity|]. simpl. fold files in Hnd. rewrite E in Hnd. exact Hnd.
Qed.

End Batch.

Lemma convert_file_returns (L : libraries) (self : HTMLToPDFConverter)
    (html_file_path out r : string) (w w' : world) :
  convert_html_file_to_pdf L self html_file_path (Some out) w = (Ok r, w') -> r = out.
Proof.
  intros H.
  destruct (PDF_GENERATION_AVAILABLE L) eqn:Ha.
  - destruct (os.path_exists (fs w) html_file_path) eqn:He.
    + destruct (convert_file_guarded L self html_file_path (Some out) w Ha He)
        as [[w1 H1]|(e & w1 & H1 & _)]; congruence.
    + rewrite (convert_file_missing L self _ _ w He) in H. discriminate.
  - unfold convert_html_file_to_pdf in H. rewrite Ha in H. discriminate.
Qed.

Lemma wf_batch_run (L : libraries) (self : HTMLToPDFConverter) (d : string)
    (output_directory' : option string) (w : world) :
  fs_wf (fs w) = true ->
  os.path_isdir (fs w) d = true ->
  exists names,
    os.listdir (fs w) d = Ok names /\
    NoDup (os_path.join d <$> List.filter is_html names) /\
    let files := List.filter is_html names in
    let o := default (output_directory self) output_directory' in
    batch_convert_html_files L self d output_directory' w
      = (Ok (entries L self d o files (batch_start d files w)),
         after_files L self d o files (batch_start d files w)).
Proof.
  intros Hwf Hdir. destruct (isdir_listdir _ _ Hdir) as [names Hls].
  destruct (listdir_names _ _ _ Hwf Hls) as [Hnd Hns].
  assert (NoDup (os_path.join d <$> List.filter is_html names)) as Hkeys.
  { apply keys_NoDup.
    - apply NoDup_ListNoDup, List.NoDup_filter, NoDup_ListNoDup, Hnd.
    - apply filter_Forall, Hns. }
  exists names. split; [exact Hls|]. split; [exact Hkeys|].
  intros files o. now apply batch_run.
Qed.

(** ** Batch conversion: the report *)

(** C4. Over an existing directory of a well-formed filesystem the batch
    returns a report whose keys are the joined paths of exactly the listed
    names that end in [.html] without regard to case, in listing order: as
    many entries as there are such names, and no key twice. *)
Theorem batch_report_entries (L : libraries) (self : HTMLToPDFConverter) (html_directory : string)
    (output_directory' : option string) (w : world) :
  fs_wf (fs w) = true ->
  os.path_isdir (fs w) html_directory = true ->
  exists names report w',
    os.listdir (fs w) html_directory = Ok names /\
    batch_convert_html_files L self html_directory output_directory' w = (Ok report, w') /\
    report.*1 = (os_path.join html_directory <$> List.filter is_html names) /\
    length report = length (List.filter is_html names) /\
    NoDup (report.*1).
Proof.
  intros Hwf Hdir.
  destruct (wf_batch_run L self html_directory output_directory' w Hwf Hdir)
    as (names & Hls & Hkeys & Hrun).
  exists names. eexists. eexists. split; [exact Hls|]. split; [exact Hrun|].
  rewrite entries_keys, entries_length. auto.
Qed.

(** C5. A directory that lists no name ending in [.html] gives the empty
    report, with a warning in the log and nothing else changed; and the
    batch raises [FileNotFoundError] exactly when the input directory does
    not exist. *)
Theorem batch_empty_report (L : libraries) (self : HTMLToPDFConverter) (html_directory : string)
    (output_directory' : option string) (w : world) :
  (os.path_isdir (fs w) html_directory = true ->
   exists names,
     os.listdir (fs w) html_directory = Ok names /\
     (List.filter is_html names = [] ->
      batch_convert_html_files L self html_directory output_directory' w
        = (Ok [], mkWorld (fs w)
                    (log w ++ [(WARNING, "No HTML files found in " ++ html_directory)])
                    (stdout w)))) /\
  (os.path_exists (fs w) html_directory = false ->
   batch_convert_html_files L self html_directory output_directory' w
     = (Raise (FileNotFoundError ("HTML directory not found: " ++ html_directory)), w)) /\
  (forall msg w',
     batch_convert_html_files L self html_directory output_directory' w
       = (Raise (FileNotFoundError msg), w') ->
     os.path_exists (fs w) html_directory = false).
Proof.
  split; [|split].
  - intros Hdir. destruct (isdir_listdir _ _ Hdir) as [names Hls].
    exists names. split; [exact Hls|]. intros Hnone.
    rewrite (batch_run L self html_directory _ output_directory' names w eq_refl Hls);
      rewrite Hnone; [reflexivity|constructor].
  - intros Hmissing. unfold batch_convert_html_files.
    rewrite run_bind, run_exists, Hmissing. reflexivity.
  - intros msg w' H. destruct (os.path_exists (fs w) html_directory) eqn:He; [|reflexivity].
    exfalso. revert H. unfold batch_convert_html_files.
    rewrite run_bind, run_exists, He. change (negb true) with false. cbv iota.
    rewrite run_bind. unfold os_listdir, query_fs, os.listdir.
    unfold os.path_exists, os.lookup_path in He.
    destruct (os.resolve (fs w) html_directory) as [k|]; [|discriminate].
    destruct (os.node (tree (fs w)) k) as [[]|]; try discriminate.
    destruct (List.filter is_html _) as [|f files].
    + discriminate.
    + rewrite run_bind, run_logger.
      generalize (@nil (string * string)).
      generalize (mkWorld (fs w)
        (log w ++ [(INFO, "Found " ++ PyStr.of_nat (length (f :: files)) ++ " HTML files to convert")])
        (stdout w)).
      induction (f :: files) as [|f' files' IH]; intros w0 results; simpl.
      * discriminate.
      * rewrite run_bind, batch_step_run. apply IH.
Qed.

(** ** Directories stay directories

    Nothing the program does removes a directory or turns it into a file. *)

Lemma fs_le_refl (f : filesystem) : fs_le f f.
Proof. split; auto. Qed.

Lemma fs_le_trans (f1 f2 f3 : filesystem) : fs_le f1 f2 -> fs_le f2 f3 -> fs_le f1 f3.
Proof. intros [Hc1 H1] [Hc2 H2]. split; [congruence|auto]. Qed.

(** Resolution only looks at directories, so it survives whatever keeps
    them. *)
Lemma walk_mono (p : string) (t t' : gmap (list string) inode) (comps cur k : list string) :
  (forall j, os.node t j = Some Directory -> os.node t' j = Some Directory) ->
  os.walk p t cur comps = Ok k -> os.walk p t' cur comps = Ok k.
Proof.
  intros Hle. revert cur. induction comps as [|c rest IH]; intros cur; cbn [os.walk]; [auto|].
  destruct (os.node t cur) as [[]|] eqn:E; try discriminate.
  rewrite (Hle _ E). apply IH.
Qed.

Lemma resolve_mono (f1 f2 : filesystem) (p : string) (k : list string) :
  fs_le f1 f2 -> os.resolve f1 p = Ok k -> os.resolve f2 p = Ok k.
Proof.
  intros [Hc Hk]. unfold os.resolve, os.start. rewrite <- Hc.
  destruct (PyStr.truthy p); [|discriminate]. now apply walk_mono.
Qed.

Lemma fs_le_isdir (f1 f2 : filesystem) (p : string) :
  fs_le f1 f2 -> os.path_isdir f1 p = true -> os.path_isdir f2 p = true.
Proof.
  intros Hle. unfold os.path_isdir, os.lookup_path.
  destruct (os.resolve f1 p) as [k|] eqn:Hr; [|discriminate].
  rewrite (resolve_mono _ _ _ _ Hle Hr). destruct Hle as [_ Hk].
  destruct (os.node (tree f1) k) as [[]|] eqn:E; try discriminate.
  now rewrite (Hk k E).
Qed.

Lemma mkdir_p_keeps (p : string) (comps seen cur : list string)
    (t t' : gmap (list string) inode) :
  os.mkdir_p p t seen cur comps = Ok t' ->
  forall k, os.node t k = Some Directory -> os.node t' k = Some Directory.
Proof.
  revert t seen cur. induction comps as [|c rest IH]; intros t seen cur H k Hk;
    cbn [os.mkdir_p] in H; destruct (os.node t cur) as [[]|]; try discriminate.
  - congruence.
  - destruct (String.eqb c "" || String.eqb c "."); [eapply IH; eauto|].
    destruct (String.eqb c ".."); [eapply IH; eauto|]. cbv zeta in H.
    destruct (t !! (cur ++ [c])%list) as [[]|] eqn:E; try discriminate.
    + eapply IH; eauto.
    + eapply IH; [exact H|].
      destruct k as [|x k]; [reflexivity|]. simpl in *.
      rewrite lookup_insert_ne; [exact Hk|]. congruence.
Qed.

Lemma makedirs_keeps (f f' : filesystem) (name : string) :
  os.makedirs f name = Ok f' -> fs_le f f'.
Proof.
  unfold os.makedirs. destruct (PyStr.truthy name); [|discriminate].
  destruct (os.mkdir_p _ _ _ _ _) as [t|e] eqn:E; [|discriminate].
  intros [= <-]. split; [reflexivity|]. simpl. eapply mkdir_p_keeps, E.
Qed.

Lemma write_file_keeps (f f' : filesystem) (p data : string) :
  os.write_file f p data = Ok f' -> fs_le f f'.
Proof.
  unfold os.write_file. destruct (PyStr.endswith p "/").
  { destruct (os.walk _ _ _ _); discriminate. }
  destruct (os.resolve f p) as [k|]; [|discriminate].
  intros H.
  assert (os.node (tree f) k <> Some Directory /\
          f' = mkFs (cwd f) (<[k := RegularFile data]> (tree f))) as [Hk ->].
  { destruct (os.node (tree f) k) as [[]|];
      destruct (os.node (tree f) (removelast k)) as [[]|]; try discriminate;
      injection H as <-; split; congruence. }
  split; [reflexivity|]. simpl. intros j Hj.
  destruct j as [|x j]; [reflexivity|]. simpl in *.
  rewrite lookup_insert_ne; [exact Hj|].
  intros ->. apply Hk. exact Hj.
Qed.

(** What the conversions preserve: any reflexive and transitive relation
    that logging, [os.makedirs] and writing a file preserve. *)
Section Preserves.
Context (R : world -> world -> Prop).
Context (R_refl : forall w, R w w).
Context (R_trans : forall w1 w2 w3, R w1 w2 -> R w2 w3 -> R w1 w3).
Context (R_logger : forall l msg, preserves R (logger l msg)).
Context (R_makedirs : forall name, preserves R (os_makedirs name)).
Context (R_write : forall p data, preserves R (write_bytes p data)).

Lemma preserves_ret {A : Type} (a : A) : preserves R (mret a : M A).
Proof. intros w. apply R_refl. Qed.

Lemma preserves_raise {A : Type} (e : exn) : preserves R (raise e : M A).
Proof. intros w. apply R_refl. Qed.

Lemma preserves_lift {A : Type} (r : result A) : preserves R (lift r).
Proof. intros w. apply R_refl. Qed.

Lemma preserves_query {A : Type} (op : filesystem -> result A) : preserves R (query_fs op).
Proof. intros w. apply R_refl. Qed.

Lemma preserves_get_fs : preserves R get_fs.
Proof. intros w. apply R_refl. Qed.

Lemma preserves_bind {A B : Type} (c : M A) (k : A -> M B) :
  preserves R c -> (forall a, preserves R (k a)) -> preserves R (c ≫= k).
Proof.
  intros Hc Hk w. rewrite run_bind. specialize (Hc w).
  destruct (c w) as [[a|e] w1]; simpl in *; [|exact Hc].
  eapply R_trans; [exact Hc|apply Hk].
Qed.

Lemma preserves_try {A : Type} (c : M A) (handler : exn -> M A) :
  preserves R c -> (forall e, preserves R (handler e)) -> preserves R (try_except c handler).
Proof.
  intros Hc Hh w. unfold try_except. specialize (Hc w).
  destruct (c w) as [[a|e] w1]; simpl in *; [exact Hc|].
  eapply R_trans; [exact Hc|apply Hh].
Qed.

Ltac preserving :=
  repeat first
    [ progress (intros)
    | apply preserves_bind
    | apply preserves_try
    | solve [auto using preserves_ret, preserves_raise, preserves_lift, preserves_query,
               preserves_get_fs] ].

Lemma preserves_convert_file (L : libraries) (self : HTMLToPDFConverter)
    (html_file_path : string) (output_pdf_path : option string) :
  preserves R (convert_html_file_to_pdf L self html_file_path output_pdf_path).
Proof.
  unfold convert_html_file_to_pdf.
  destruct (negb (PDF_GENERATION_AVAILABLE L)); [preserving|].
  apply preserves_bind; [unfold os_path_exists; preserving|]. intros found.
  destruct (negb found); [preserving|].
  unfold log_and_reraise, _convert_with_weasyprint_file, _convert_with_reportlab_file,
    _convert_with_reportlab_string, read_text.
  destruct (PDF_METHOD L) as [[]|]; preserving.
  destruct (negb (bs4_importable L)); preserving.
Qed.

Lemma preserves_batch_loop (L : libraries) (self : HTMLToPDFConverter) (d o : string)
    (files : list string) (results : list (string * string)) :
  preserves R (batch_loop L self d o files results).
Proof.
  revert results. induction files as [|f files IH]; intros results; simpl; [preserving|].
  apply preserves_bind; [|exact IH].
  unfold batch_step. pose proof preserves_convert_file. preserving.
Qed.

Lemma preserves_batch (L : libraries) (self : HTMLToPDFConverter) (d : string)
    (o : option string) :
  preserves R (batch_convert_html_files L self d o).
Proof.
  unfold batch_convert_html_files.
  apply preserves_bind; [unfold os_path_exists; preserving|]. intros found.
  destruct (negb found); [preserving|].
  apply preserves_bind; [unfold os_listdir; preserving|]. intros entries.
  destruct (List.filter is_html entries); [preserving|].
  apply preserves_bind; [preserving|]. intros _. apply preserves_batch_loop.
Qed.

Lemma preserves_init (output_directory : string) : preserves R (init output_directory).
Proof. unfold init, ensure_output_directory. preserving. Qed.

Lemma preserves_create_sample (sample_html filename : string) :
  preserves R (create_sample_html_file sample_html filename).
Proof. unfold create_sample_html_file. preserving. Qed.

End Preserves.

Lemma dirs_le_makedirs (name : string) : preserves dirs_le (os_makedirs name).
Proof.
  intros w. unfold os_makedirs, update_fs, dirs_le.
  destruct (os.makedirs (fs w) name) eqn:E; simpl; [|apply fs_le_refl].
  eapply makedirs_keeps, E.
Qed.

Lemma dirs_le_write (p data : string) : preserves dirs_le (write_bytes p data).
Proof.
  intros w. unfold write_bytes, update_fs, dirs_le.
  destruct (os.write_file (fs w) p data) eqn:E; simpl; [|apply fs_le_refl].
  eapply write_file_keeps, E.
Qed.

(** Converting a file leaves every directory in place. *)
Lemma keeps_convert_file (L : libraries) (self : HTMLToPDFConverter)
    (html_file_path : string) (output_pdf_path : option string) :
  preserves dirs_le (convert_html_file_to_pdf L self html_file_path output_pdf_path).
Proof.
  apply preserves_convert_file.
  - intros w. apply fs_le_refl.
  - intros w1 w2 w3. apply fs_le_trans.
  - intros l msg w. apply fs_le_refl.
  - apply dirs_le_makedirs.
  - apply dirs_le_write.
Qed.

(** Nothing below the command line prints. *)
Lemma silent_update (op : filesystem -> result filesystem) : preserves same_stdout (update_fs op).
Proof. intros w. unfold update_fs, same_stdout. now destruct (op (fs w)). Qed.

Lemma same_stdout_trans (w1 w2 w3 : world) :
  same_stdout w1 w2 -> same_stdout w2 w3 -> same_stdout w1 w3.
Proof. unfold same_stdout. congruence. Qed.

Ltac silent lemma :=
  apply lemma;
  first [ intros w; exact eq_refl | apply same_stdout_trans | intros l msg w; exact eq_refl
        | intros; apply silent_update ].

Lemma silent_convert_file (L : libraries) (self : HTMLToPDFConverter)
    (html_file_path : string) (output_pdf_path : option string) :
  preserves same_stdout (convert_html_file_to_pdf L self html_file_path output_pdf_path).
Proof. silent preserves_convert_file. Qed.

Lemma silent_batch (L : libraries) (self : HTMLToPDFConverter) (d : string) (o : option string) :
  preserves same_stdout (batch_convert_html_files L self d o).
Proof. silent preserves_batch. Qed.

Lemma silent_init (output_directory : string) : preserves same_stdout (init output_directory).
Proof. silent preserves_init. Qed.

Lemma silent_create_sample (sample_html filename : string) :
  preserves same_stdout (create_sample_html_file sample_html filename).
Proof. silent preserves_create_sample. Qed.

Lemma keeps_after_files (L : libraries) (self : HTMLToPDFConverter) (d o : string)
    (files : list string) (w : world) :
  fs_le (fs w) (fs (after_files L self d o files w)).
Proof.
  revert w. induction files as [|f files IH]; intros w; [apply fs_le_refl|].
  simpl. eapply fs_le_trans; [|apply IH].
  unfold after_file, convert_entry.
  pose proof (keeps_convert_file L self (os_path.join d f) (Some (pdf_path_for o f)) w) as H.
  destruct (convert_html_file_to_pdf L self _ _ w) as [r w1]. exact H.
Qed.

(** ** Converting something that is not a regular file *)

Lemma isdir_exists (f : filesystem) (p : string) :
  os.path_isdir f p = true -> os.path_exists f p = true.
Proof.
  unfold os.path_isdir, os.path_exists.
  destruct (os.lookup_path f p) as [[]|]; congruence.
Qed.

Lemma isdir_read (f : filesystem) (p : string) :
  os.path_isdir f p = true -> os.read_file f p = Raise (os.eisdir p).
Proof.
  unfold os.path_isdir, os.lookup_path, os.read_file.
  destruct (os.resolve f p) as [k|]; [|discriminate].
  destruct (os.node (tree f) k) as [[]|]; congruence.
Qed.

Lemma read_exists (f : filesystem) (p data : string) :
  os.read_file f p = Ok data -> os.path_exists f p = true.
Proof.
  unfold os.read_file, os.path_exists, os.lookup_path.
  destruct (os.resolve f p) as [k|]; [|discriminate].
  destruct (os.node (tree f) k) as [[]|]; congruence.
Qed.

Lemma weasyprint_file_on_directory (L : libraries) (self : HTMLToPDFConverter)
    (html_file_path output_pdf_path : string) (w : world) :
  os.path_isdir (fs w) html_file_path = true ->
  exists e w', _convert_with_weasyprint_file L self html_file_path output_pdf_path w = (Raise e, w').
Proof.
  intros Hdir. unfold _convert_with_weasyprint_file.
  destruct (PDF_METHOD L) as [[]|]; try (unfold raise; eauto).
  rewrite run_bind.
  pose proof (dirs_le_makedirs (os_path.dirname output_pdf_path) w) as Hle.
  destruct (os_makedirs (os_path.dirname output_pdf_path) w) as [[[]|e] w1]; [|eauto].
  simpl in Hle. rewrite run_bind. unfold read_text, query_fs.
  rewrite (isdir_read _ _ (fs_le_isdir _ _ _ Hle Hdir)). eauto.
Qed.

Lemma reportlab_file_on_directory (L : libraries) (self : HTMLToPDFConverter)
    (html_file_path output_pdf_path : string) (w : world) :
  os.path_isdir (fs w) html_file_path = true ->
  _convert_with_reportlab_file L self html_file_path output_pdf_path w
    = (Raise (os.eisdir html_file_path), w).
Proof.
  intros Hdir. unfold _convert_with_reportlab_file.
  rewrite run_bind. unfold read_text, query_fs. now rewrite (isdir_read _ _ Hdir).
Qed.

(** A path that names a directory cannot be converted, whatever the
    backend. *)
Lemma convert_directory_fails (L : libraries) (self : HTMLToPDFConverter)
    (html_file_path : string) (output_pdf_path : option string) (w : world) :
  os.path_isdir (fs w) html_file_path = true ->
  exists e w', convert_html_file_to_pdf L self html_file_path output_pdf_path w = (Raise e, w').
Proof.
  intros Hdir. unfold convert_html_file_to_pdf.
  destruct (PDF_GENERATION_AVAILABLE L); simpl; [|unfold raise; eauto].
  rewrite run_bind, run_exists, (isdir_exists _ _ Hdir). change (negb true) with false. cbv iota.
  rewrite run_bind, run_logger, run_bind, run_logger.
  unfold try_except.
  match goal with |- context [mkWorld ?f ?l ?s] => set (w2 := mkWorld f l s) end.
  assert (os.path_isdir (fs w2) html_file_path = true) as Hdir2 by exact Hdir.
  destruct (PDF_METHOD L) as [[]|].
  - destruct (weasyprint_file_on_directory L self html_file_path
      (match output_pdf_path with
       | Some p => p
       | None => os_path.join (output_directory self) (pathlib.stem html_file_path ++ ".pdf")
       end) w2 Hdir2) as (e & w3 & ->).
    unfold log_and_reraise. rewrite run_bind, run_logger. unfold raise. eauto.
  - rewrite reportlab_file_on_directory by exact Hdir2.
    unfold log_and_reraise. rewrite run_bind, run_logger. unfold raise. eauto.
  - unfold raise at 1. unfold log_and_reraise. rewrite run_bind, run_logger. unfold raise. eauto.
Qed.

(** ** Batch conversion: failures *)

(** C6. Every file found gets its turn, in order, in the world the
    earlier files left behind; its entry sits under its own key, which no
    other entry has, and holds the PDF path when its conversion returned
    and ["Error: "] followed by the message when it raised.  The batch
    itself returns normally. *)
Theorem batch_isolates_failures (L : libraries) (self : HTMLToPDFConverter)
    (html_directory : string) (output_directory' : option string) (w : world) :
  fs_wf (fs w) = true ->
  os.path_isdir (fs w) html_directory = true ->
  exists names report w',
    os.listdir (fs w) html_directory = Ok names /\
    batch_convert_html_files L self html_directory output_directory' w = (Ok report, w') /\
    let html_files := List.filter is_html names in
    let o := default (output_directory self) output_directory' in
    length report = length html_files /\
    NoDup (report.*1) /\
    forall i html_file,
      html_files !! i = Some html_file ->
      let turn := after_files L self html_directory o (take i html_files)
                    (batch_start html_directory html_files w) in
      let attempt := fst (convert_entry L self html_directory o html_file turn) in
      report !! i = Some (os_path.join html_directory html_file,
                          match attempt with
                          | Ok _ => pdf_path_for o html_file
                          | Raise e => "Error: " ++ str_exn e
                          end).
Proof.
  intros Hwf Hdir.
  destruct (wf_batch_run L self html_directory output_directory' w Hwf Hdir)
    as (names & Hls & Hkeys & Hrun).
  exists names. eexists. eexists. split; [exact Hls|]. split; [exact Hrun|].
  intros html_files o. split; [apply entries_length|].
  split; [now rewrite entries_keys|].
  intros i html_file Hi turn attempt.
  rewrite (entries_lookup L self html_directory o _ _ i html_file Hi).
  unfold entry_for. do 2 f_equal.
  subst attempt. fold html_files. fold turn. unfold convert_entry.
  destruct (convert_html_file_to_pdf L self _ _ turn) as [[r|e] w1] eqn:E; [|reflexivity].
  simpl. eapply convert_file_returns, E.
Qed.

(** C10. A listed name that ends in [.html] is taken into the batch
    whatever it names: when it names a directory, the report still has an
    entry under its key, and that entry is an error string. *)
Theorem batch_includes_directories (L : libraries) (self : HTMLToPDFConverter)
    (html_directory : string) (output_directory' : option string) (w : world)
    (names : list string) (entry : string) :
  fs_wf (fs w) = true ->
  os.listdir (fs w) html_directory = Ok names ->
  entry ∈ names ->
  is_html entry = true ->
  os.path_isdir (fs w) (os_path.join html_directory entry) = true ->
  exists report w' e,
    batch_convert_html_files L self html_directory output_directory' w = (Ok report, w') /\
    (os_path.join html_directory entry, "Error: " ++ str_exn e) ∈ report /\
    length report = length (List.filter is_html names).
Proof.
  intros Hwf Hls Hin Hhtml Hdir.
  destruct (listdir_exists _ _ _ Hls) as [Hd _].
  destruct (wf_batch_run L self html_directory output_directory' w Hwf Hd)
    as (names' & Hls' & Hkeys & Hrun).
  assert (names' = names) as -> by congruence.
  set (files := List.filter is_html names) in *.
  set (o := default (output_directory self) output_directory') in *.
  assert (entry ∈ files) as Hfile.
  { apply list_elem_of_In, List.filter_In. split; [now apply list_elem_of_In|exact Hhtml]. }
  apply list_elem_of_lookup in Hfile as [i Hi].
  set (turn := after_files L self html_directory o (take i files)
                 (batch_start html_directory files w)).
  assert (os.path_isdir (fs turn) (os_path.join html_directory entry) = true) as Hturn.
  { eapply fs_le_isdir; [apply keeps_after_files|exact Hdir]. }
  destruct (convert_directory_fails L self _ (Some (pdf_path_for o entry)) turn Hturn)
    as (e & w1 & He).
  eexists. eexists. exists e. split; [exact Hrun|]. split; [|apply entries_length].
  apply list_elem_of_lookup. exists i.
  rewrite (entries_lookup L self html_directory o _ _ i entry Hi).
  unfold entry_for, convert_entry. fold turn. now rewrite He.
Qed.

(** ** Single conversions: the output path *)

(** C2. For an existing file and no explicit output path, with a backend
    selected, the call either returns the output directory joined with the
    stem and [.pdf] (one slash between them unless the directory is empty
    or ends in one) or raises what the backend raised, after logging it. *)
Theorem default_output_path (L : libraries) (self : HTMLToPDFConverter)
    (html_file_path : string) (w : world) :
  PDF_GENERATION_AVAILABLE L = true ->
  os.path_exists (fs w) html_file_path = true ->
  let derived := os_path.join (output_directory self) (pathlib.stem html_file_path ++ ".pdf") in
  derived = output_directory self
            ++ (if negb (PyStr.truthy (output_directory self))
                   || PyStr.endswith (output_directory self) "/" then "" else "/")
            ++ pathlib.stem html_file_path ++ ".pdf" /\
  ((exists w', convert_html_file_to_pdf L self html_file_path None w = (Ok derived, w')) \/
   (exists e w', convert_html_file_to_pdf L self html_file_path None w = (Raise e, w') /\
      last (log w') = Some (ERROR, "PDF conversion failed: " ++ str_exn e))).
Proof.
  intros Ha He derived. split.
  - apply join_name; [apply stem_no_sep|reflexivity].
  - exact (convert_file_guarded L self html_file_path None w Ha He).
Qed.

Lemma default_output_path_witness :
  exists w', convert_html_file_to_pdf (Demo.libs true false) Demo.converter "site/a.html" None
               Demo.w0 = (Ok "./pdf_outputs/a.pdf", w').
Proof.
  destruct (default_output_path (Demo.libs true false) Demo.converter "site/a.html" Demo.w0)
    as [_ [H|(e & w' & H & _)]].
  - reflexivity.
  - vm_compute. reflexivity.
  - exact H.
  - exfalso. vm_compute in H. discriminate H.
Defined.

(** ** Single conversions: the output directory *)

Lemma rpartition_no_sep (p : string) :
  no_sep p = true -> PyStr.rpartition PyStr.sep p = ("", p).
Proof.
  induction p as [|c p IH]; [reflexivity|].
  rewrite no_sep_cons. intros [Hc Hp]%andb_true_iff.
  simpl. rewrite (IH Hp). simpl.
  destruct (PyStr.is_char c PyStr.sep); [discriminate|reflexivity].
Qed.

Lemma dirname_no_sep (p : string) : no_sep p = true -> os_path.dirname p = "".
Proof.
  intros Hp. unfold os_path.dirname, os_path.split. now rewrite (rpartition_no_sep p Hp).
Qed.

Lemma makedirs_empty (w : world) : os_makedirs "" w = (Raise (os.enoent ""), w).
Proof. reflexivity. Qed.

Lemma node_snoc (t : gmap (list string) inode) (done : list string) (c : string) :
  os.node t (done ++ [c]) = t !! (done ++ [c])%list.
Proof. destruct done; reflexivity. Qed.

Lemma mkdir_p_creates (p : string) (comps seen cur : list string)
    (t t' : gmap (list string) inode) :
  os.mkdir_p p t seen cur comps = Ok t' ->
  exists k, os.walk p t' cur comps = Ok k /\ os.node t' k = Some Directory.
Proof.
  revert t seen cur. induction comps as [|c rest IH]; intros t seen cur H;
    pose proof (mkdir_p_keeps _ _ _ _ _ _ H) as Hkeep;
    cbn [os.mkdir_p] in H; destruct (os.node t cur) as [[]|] eqn:Hcur; try discriminate.
  - injection H as <-. exists cur. split; [reflexivity|exact Hcur].
  - cbn [os.walk]. rewrite (Hkeep _ Hcur). unfold os.step.
    destruct (String.eqb c "" || String.eqb c "."); [eapply IH; eauto|].
    destruct (String.eqb c ".."); [eapply IH; eauto|]. cbv zeta in H.
    destruct (t !! (cur ++ [c])%list) as [[]|] eqn:E; try discriminate; eapply IH; eauto.
Qed.

(** When [os.makedirs] returns, the directory is there. *)
Lemma makedirs_creates (f f' : filesystem) (name : string) :
  os.makedirs f name = Ok f' -> os.path_isdir f' name = true.
Proof.
  unfold os.makedirs, os.path_isdir, os.lookup_path, os.resolve.
  destruct (PyStr.truthy name); [|discriminate].
  destruct (os.mkdir_p _ _ _ _ _) as [t|e] eqn:E; [|discriminate].
  intros [= <-]. apply mkdir_p_creates in E as (k & Hw & Hk).
  change (os.start (mkFs (cwd f) t) name) with (os.start f name).
  change (tree (mkFs (cwd f) t)) with t. now rewrite Hw, Hk.
Qed.

Lemma convert_string_unfold (L : libraries) (self : HTMLToPDFConverter)
    (html_content output_pdf_path : string) (w : world) :
  PDF_GENERATION_AVAILABLE L = true ->
  convert_html_string_to_pdf L self html_content output_pdf_path w
    = try_except
        (match PDF_METHOD L with
         | Some weasyprint => _convert_with_weasyprint_string L self html_content output_pdf_path
         | Some reportlab => _convert_with_reportlab_string L self html_content output_pdf_path
         | None => raise (RuntimeError ("Unknown PDF method: " ++ str_method (PDF_METHOD L)))
         end)
        log_and_reraise
        (add_log (add_log w
           [(INFO, "Converting HTML content (" ++ PyStr.of_nat (String.length html_content)
                   ++ " characters)")])
           [(INFO, "Output PDF: " ++ output_pdf_path)]).
Proof.
  intros Ha. unfold convert_html_string_to_pdf. rewrite Ha. reflexivity.
Qed.

Lemma convert_file_unfold (L : libraries) (self : HTMLToPDFConverter)
    (html_file_path output_pdf_path : string) (w : world) :
  PDF_GENERATION_AVAILABLE L = true ->
  os.path_exists (fs w) html_file_path = true ->
  convert_html_file_to_pdf L self html_file_path (Some output_pdf_path) w
    = try_except
        (match PDF_METHOD L with
         | Some weasyprint => _convert_with_weasyprint_file L self html_file_path output_pdf_path
         | Some reportlab => _convert_with_reportlab_file L self html_file_path output_pdf_path
         | None => raise (RuntimeError ("Unknown PDF method: " ++ str_method (PDF_METHOD L)))
         end)
        log_and_reraise
        (add_log (add_log w [(INFO, "Converting HTML file: " ++ html_file_path)])
           [(INFO, "Output PDF: " ++ output_pdf_path)]).
Proof.
  intros Ha He. unfold convert_html_file_to_pdf. rewrite Ha.
  change (negb true) with false. cbv iota.
  rewrite run_bind, run_exists, He. reflexivity.
Qed.

Section BareName.
Context (L : libraries) (self : HTMLToPDFConverter) (out : string).
Context (Hdir : os_path.dirname out = "").

Lemma weasyprint_string_bare (html_content : string) (w : world) :
  PDF_METHOD L = Some weasyprint ->
  _convert_with_weasyprint_string L self html_content out w = (Raise (os.enoent ""), w).
Proof.
  intros Hm. unfold _convert_with_weasyprint_string.
  now rewrite Hm, run_bind, Hdir, makedirs_empty.
Qed.

Lemma weasyprint_file_bare (html_file_path : string) (w : world) :
  PDF_METHOD L = Some weasyprint ->
  _convert_with_weasyprint_file L self html_file_path out w = (Raise (os.enoent ""), w).
Proof.
  intros Hm. unfold _convert_with_weasyprint_file.
  now rewrite Hm, run_bind, Hdir, makedirs_empty.
Qed.

Lemma reportlab_string_bare (html_content : string) (w : world) :
  bs4_importable L = true ->
  _convert_with_reportlab_string L self html_content out w = (Raise (os.enoent ""), w).
Proof.
  intros Hb. unfold _convert_with_reportlab_string. rewrite Hb.
  change (negb true) with false. cbv iota.
  now rewrite run_bind, Hdir, makedirs_empty.
Qed.

Lemma reportlab_file_bare (html_file_path source : string) (w : world) :
  bs4_importable L = true ->
  os.read_file (fs w) html_file_path = Ok source ->
  _convert_with_reportlab_file L self html_file_path out w = (Raise (os.enoent ""), w).
Proof.
  intros Hb Hread. unfold _convert_with_reportlab_file.
  rewrite run_bind. unfold read_text, query_fs. rewrite Hread.
  now apply reportlab_string_bare.
Qed.

End BareName.

Lemma try_backend_raises (c : M string) (e : exn) (w : world) :
  c w = (Raise e, w) ->
  try_except c log_and_reraise w
    = (Raise e, add_log w [(ERROR, "PDF conversion failed: " ++ str_exn e)]).
Proof. intros H. unfold try_except. now rewrite H. Qed.

(** C8, where the code departs from it. An output path without any
    directory part has the empty string as [os.path.dirname]; creating
    that raises [FileNotFoundError], so neither conversion writes anything,
    even though the file would go into the working directory. *)
Theorem bare_output_name_fails (L : libraries) (self : HTMLToPDFConverter)
    (html_file_path html_content output_pdf_path source : string) (w : world) :
  PDF_METHOD L = Some weasyprint \/ (PDF_METHOD L = Some reportlab /\ bs4_importable L = true) ->
  no_sep output_pdf_path = true ->
  os.read_file (fs w) html_file_path = Ok source ->
  let failure := Raise (FileNotFoundError "[Errno 2] No such file or directory: ''") in
  let run_string := convert_html_string_to_pdf L self html_content output_pdf_path w in
  let run_file := convert_html_file_to_pdf L self html_file_path (Some output_pdf_path) w in
  os_path.dirname output_pdf_path = "" /\
  fst run_string = failure /\ fs (snd run_string) = fs w /\
  fst run_file = failure /\ fs (snd run_file) = fs w.
Proof.
  intros Hm Hout Hread failure run_string run_file.
  pose proof (dirname_no_sep _ Hout) as Hdir. split; [exact Hdir|].
  assert (PDF_GENERATION_AVAILABLE L = true) as Ha.
  { destruct (PDF_GENERATION_AVAILABLE L) eqn:E; [reflexivity|].
    apply available_method in E. destruct Hm as [Hm|[Hm _]]; congruence. }
  assert (os.path_exists (fs w) html_file_path = true) as He.
  { eapply read_exists, Hread. }
  subst run_string run_file failure.
  rewrite (convert_string_unfold L self _ _ w Ha), (convert_file_unfold L self _ _ w Ha He).
  destruct Hm as [Hm|[Hm Hb]]; rewrite Hm.
  - rewrite !(try_backend_raises _ (os.enoent ""));
      [auto|now apply weasyprint_file_bare|now apply weasyprint_string_bare].
  - rewrite !(try_backend_raises _ (os.enoent ""));
      [auto|now apply (reportlab_file_bare L self _ Hdir _ source)
           |now apply reportlab_string_bare].
Qed.

Lemma bare_output_name_fails_witness :
  os.path_isdir Demo.fs0 "." = true /\
  fst (convert_html_string_to_pdf (Demo.libs true false) Demo.converter "<p>x</p>" "out.pdf" Demo.w0)
    = Raise (FileNotFoundError "[Errno 2] No such file or directory: ''") /\
  fst (convert_html_file_to_pdf (Demo.libs false true) Demo.converter "site/a.html"
         (Some "out.pdf") Demo.w0)
    = Raise (FileNotFoundError "[Errno 2] No such file or directory: ''").
Proof.
  split; [vm_compute; reflexivity|].
  split.
  - apply (bare_output_name_fails (Demo.libs true false) Demo.converter "site/a.html" "<p>x</p>"
             "out.pdf" "<title>T</title><p>x</p>" Demo.w0);
      [left; reflexivity|reflexivity|vm_compute; reflexivity].
  - apply (bare_output_name_fails (Demo.libs false true) Demo.converter "site/a.html" "<p>x</p>"
             "out.pdf" "<title>T</title><p>x</p>" Demo.w0);
      [right; split; reflexivity|reflexivity|vm_compute; reflexivity].
Defined.

(** ** The fallback rendering *)

Lemma get_text_decompose (names : list string) (e : PageElement) :
  bs4.named names e = false ->
  bs4.get_text (bs4.decompose_all names e) = text_outside names e.
Proof.
  induction e as [n cs IH| |] using PageElement_nested_ind; intros Hn; try reflexivity.
  simpl in *. rewrite Hn. clear Hn.
  induction IH as [|c cs Hc Hcs IHcs]; [reflexivity|].
  simpl. destruct (bs4.named names c) eqn:Hc'.
  - simpl. rewrite IHcs. destruct c as [n' cs'| |]; try discriminate.
    simpl in *. now rewrite Hc'.
  - simpl. now rewrite IHcs, Hc.
Qed.

Lemma decompose_no_named (names : list string) (e : PageElement) :
  bs4.named names e = false ->
  has_named names (bs4.decompose_all names e) = false.
Proof.
  induction e as [n cs IH| |] using PageElement_nested_ind; intros Hn; try reflexivity.
  simpl in *. rewrite Hn. clear Hn. simpl.
  induction IH as [|c cs Hc Hcs IHcs]; [reflexivity|].
  simpl. destruct (bs4.named names c) eqn:Hc'; [exact IHcs|].
  simpl. now rewrite IHcs, Hc.
Qed.

(** C7, as amended. The story is made from the document with every
    [script] and [style] element removed: a title block when a [title]
    element is found, then the whole remaining text, the title's own text
    included, split at ["\n\n"], each piece stripped of surrounding white
    space and kept, in order, when something is left of it.  For the
    sample document the title is [Demo] and the one paragraph is
    [DemoAB]. *)
Theorem fallback_story (L : libraries) (html_content : string) :
  let parsed := bs4.BeautifulSoup (html_parser L html_content) in
  let soup := bs4.decompose_all ["script"; "style"] parsed in
  let text := text_outside ["script"; "style"] parsed in
  has_named ["script"; "style"] soup = false /\
  bs4.get_text soup = text /\
  build_story L html_content
    = (match bs4.find "title" soup with
       | Some title_tag => [Paragraph (bs4.get_text title_tag) "Title"; Spacer 1 12]
       | None => []
       end
       ++ flat_map (fun para =>
                      if PyStr.truthy (PyStr.strip para)
                      then [Paragraph (PyStr.strip para) "Normal"; Spacer 1 6]
                      else [])
            (PyStr.split_blank text))%list /\
  (html_parser L "<title>Demo</title><p>A</p><p></p><p>B</p>" = demo_contents ->
   let story := build_story L "<title>Demo</title><p>A</p><p></p><p>B</p>" in
   story = [Paragraph "Demo" "Title"; Spacer 1 12; Paragraph "DemoAB" "Normal"; Spacer 1 6] /\
   story_mentions story "Demo" = true /\
   story_mentions story "A" = true /\
   story_mentions story "B" = true).
Proof.
  intros parsed soup text.
  assert (bs4.get_text soup = text) as Htext by (now apply get_text_decompose).
  split; [now apply decompose_no_named|]. split; [exact Htext|]. split.
  - unfold build_story. fold parsed. fold soup. rewrite Htext. reflexivity.
  - intros Hparse story. subst story. unfold build_story. rewrite Hparse.
    repeat split; reflexivity.
Qed.

Lemma fallback_story_witness :
  build_story (Demo.libs false true) "<title>Demo</title><p>A</p><p></p><p>B</p>"
    = [Paragraph "Demo" "Title"; Spacer 1 12; Paragraph "DemoAB" "Normal"; Spacer 1 6].
Proof.
  apply (fallback_story (Demo.libs false true) Demo.demo_html). reflexivity.
Defined.

(** C7, as stated, fails twice.  The text split into paragraphs is not
    what remains beside the title: the title's text comes back at the head
    of the first paragraph.  And a piece that is not empty but blank is
    left out. *)
Lemma title_text_repeated_in_body :
  let parsed := bs4.BeautifulSoup (html_parser (Demo.libs false true) Demo.demo_html) in
  let story := build_story (Demo.libs false true) Demo.demo_html in
  story = [Paragraph "Demo" "Title"; Spacer 1 12; Paragraph "DemoAB" "Normal"; Spacer 1 6] /\
  stated_body parsed = [Paragraph "AB" "Normal"; Spacer 1 6] /\
  skipn 2 story <> stated_body parsed /\
  PyStr.split_blank
    (bs4.get_text (bs4.BeautifulSoup (html_parser (Demo.libs false true) spaced_html)))
    = ["A"; " "; "B"] /\
  build_story (Demo.libs false true) spaced_html
    = [Paragraph "A" "Normal"; Spacer 1 6; Paragraph "B" "Normal"; Spacer 1 6].
Proof.
  repeat split; try reflexivity. discriminate.
Qed.

(** ** The command line *)

Lemma run_print_all (lines : list string) (w : world) :
  print_all lines w = (Ok tt, mkWorld (fs w) (log w) (stdout w ++ lines)).
Proof.
  revert w. induction lines as [|l lines IH]; intros w; simpl.
  - rewrite run_ret, app_nil_r. now destruct w.
  - rewrite run_bind, run_print, IH. simpl. now rewrite <- app_assoc.
Qed.

Lemma run_print_results (results : list (string * string)) (w : world) :
  print_results results w
    = (Ok tt, mkWorld (fs w) (log w) (stdout w ++ (result_line <$> results))).
Proof.
  revert w. induction results as [|[k v] results IH]; intros w; simpl.
  - rewrite run_ret, app_nil_r. now destruct w.
  - rewrite run_bind. unfold result_line at 1. simpl.
    destruct (is_error v); rewrite run_print, IH; simpl; now rewrite <- app_assoc.
Qed.

Lemma startswith_app (a b : string) : PyStr.startswith (a ++ b) a = true.
Proof.
  induction a as [|c a IH]; [reflexivity|].
  simpl. unfold PyStr.is_char. now rewrite Ascii.eqb_refl.
Qed.

(** Two prefixes of one string: one is a prefix of the other. *)
Lemma prefixes_comparable (l p q : string) :
  PyStr.startswith l p = true -> PyStr.startswith l q = true ->
  PyStr.startswith p q = true \/ PyStr.startswith q p = true.
Proof.
  revert l q. induction p as [|c p IH]; intros l q Hp Hq.
  - right. now destruct q.
  - destruct q as [|d q]; [now left|].
    destruct l as [|x l]; [discriminate|]. simpl in *.
    apply andb_true_iff in Hp as [Hc Hp]. apply andb_true_iff in Hq as [Hd Hq].
    unfold PyStr.is_char in *. apply Ascii.eqb_eq in Hc, Hd. subst c d.
    rewrite Ascii.eqb_refl. simpl. exact (IH l q Hp Hq).
Qed.

Lemma announces_apart (line p q : string) :
  PyStr.startswith p q = false -> PyStr.startswith q p = false ->
  announces line p -> announces line q -> False.
Proof.
  intros Hpq Hqp Hp Hq. destruct (prefixes_comparable line p q Hp Hq); congruence.
Qed.

Section Modes.
Context (L : libraries) (sample_html : string) (converter : HTMLToPDFConverter).
Context (args : Namespace) (w1 : world).

Lemma sample_mode_prints :
  exists printed,
    stdout (snd (sample_mode L sample_html converter w1)) = (stdout w1 ++ printed)%list /\
    mode_output SampleCreation printed.
Proof.
  unfold sample_mode. rewrite run_bind.
  pose proof (silent_create_sample sample_html "sample_report.html" w1) as Hs.
  unfold create_sample_html_file in *. rewrite run_bind in *.
  destruct (write_bytes "sample_report.html" sample_html w1) as [[[]|e] w2].
  - rewrite run_bind, run_logger in *. rewrite run_ret in *. cbn [snd] in Hs.
    rewrite run_bind, run_print. unfold try_except. rewrite run_bind.
    match goal with |- context [convert_html_file_to_pdf L converter ?p ?o ?w] =>
      pose proof (silent_convert_file L converter p o w) as Hc;
      destruct (convert_html_file_to_pdf L converter p o w) as [[pdf|e] w3]
    end; rewrite run_print; cbn [snd stdout] in *; unfold same_stdout in *; cbn [stdout] in *;
      rewrite <- Hc, <- Hs, <- app_assoc; eexists; (split; [reflexivity|]);
      right; eexists; (split; [reflexivity|]); [left|right]; apply startswith_app.
  - exists []. cbn [snd] in *. rewrite app_nil_r. split; [now symmetry|now left].
Qed.

Lemma single_file_mode_prints :
  exists printed,
    stdout (snd (single_file_mode L converter args w1)) = (stdout w1 ++ printed)%list /\
    mode_output SingleFile printed.
Proof.
  unfold single_file_mode, try_except. rewrite run_bind.
  match goal with |- context [convert_html_file_to_pdf L converter ?p ?o ?w] =>
    pose proof (silent_convert_file L converter p o w) as Hc;
    destruct (convert_html_file_to_pdf L converter p o w) as [[pdf|e] w3]
  end; rewrite run_print; cbn [snd stdout] in *; unfold same_stdout in Hc; rewrite <- Hc;
    eexists; (split; [reflexivity|]); eexists; (split; [reflexivity|]);
    [left|right]; apply startswith_app.
Qed.

Lemma batch_mode_prints :
  exists printed,
    stdout (snd (batch_mode L converter args w1)) = (stdout w1 ++ printed)%list /\
    mode_output BatchConversion printed.
Proof.
  unfold batch_mode, try_except. rewrite run_bind.
  match goal with |- context [batch_convert_html_files L converter ?d ?o ?w] =>
    pose proof (silent_batch L converter d o w) as Hc;
    destruct (batch_convert_html_files L converter d o w) as [[results|e] w3]
  end; unfold same_stdout in Hc; cbn [snd] in Hc.
  - rewrite run_bind, run_print, run_print_results. cbn [snd stdout fs log].
    rewrite <- Hc, <- app_assoc. eexists. split; [reflexivity|].
    eexists. eexists. split; [reflexivity|]. left. apply startswith_app.
  - rewrite run_print. cbn [snd stdout]. rewrite <- Hc.
    eexists. split; [reflexivity|].
    eexists. eexists. split; [reflexivity|]. right. apply startswith_app.
Qed.

End Modes.

(** What is printed tells the modes apart. *)
Lemma mode_output_identifies (m m' : mode) (printed : list string) :
  printed <> [] -> mode_output m printed -> mode_output m' printed -> m = m'.
Proof.
  intros Hne Hm Hm'.
  destruct m, m'; try reflexivity; exfalso; simpl in Hm, Hm';
    repeat match goal with
    | H : _ \/ _ |- _ => destruct H
    | H : exists _, _ |- _ => destruct H
    | H : _ /\ _ |- _ => destruct H
    end; subst; try congruence;
    match goal with
    | H : _ = _ |- _ => injection H as ? ?; subst
    | H : _ = _ |- _ => discriminate H
    end;
    try discriminate;
    match goal with
    | H1 : announces ?l ?p, H2 : announces ?l ?q |- _ =>
        exact (announces_apart l p q eq_refl eq_refl H1 H2)
    | H1 : announces ?l ?p |- _ => discriminate H1
    end.
Qed.

(** C9, as amended. Once the converter is constructed, [main] runs the
    one mode that first-match precedence selects, an option counting as
    given when its value is not empty, and nothing else: what it prints is
    the output of that mode and of no other, and when no mode is selected
    it prints the usage hint and leaves the filesystem and the log as the
    constructor left them.  When the constructor raises, [main] raises the
    same exception and no mode runs. *)
Theorem cli_dispatch (L : libraries) (sample_html : string) (args : Namespace) (w : world) :
  main L sample_html args w
    = match init (output_dir args) w with
      | (Ok converter, w1) =>
          match selected_mode args with
          | SampleCreation => sample_mode L sample_html converter w1
          | SingleFile => single_file_mode L converter args w1
          | BatchConversion => batch_mode L converter args w1
          | NoOp => (Ok tt, mkWorld (fs w1) (log w1) (stdout w1 ++ usage_lines))
          end
      | (Raise e, w1) => (Raise e, w1)
      end /\
  (forall converter w1,
     init (output_dir args) w = (Ok converter, w1) ->
     exists printed,
       stdout (snd (main L sample_html args w)) = (stdout w ++ printed)%list /\
       mode_output (selected_mode args) printed /\
       (forall m, printed <> [] -> mode_output m printed -> m = selected_mode args)).
Proof.
  assert (main L sample_html args w
    = match init (output_dir args) w with
      | (Ok converter, w1) =>
          match selected_mode args with
          | SampleCreation => sample_mode L sample_html converter w1
          | SingleFile => single_file_mode L converter args w1
          | BatchConversion => batch_mode L converter args w1
          | NoOp => (Ok tt, mkWorld (fs w1) (log w1) (stdout w1 ++ usage_lines))
          end
      | (Raise e, w1) => (Raise e, w1)
      end) as Hmain.
  { unfold main, selected_mode. rewrite run_bind.
    destruct (init (output_dir args) w) as [[converter|e] w1]; [|reflexivity].
    destruct (create_sample args); [reflexivity|].
    destruct (given (html args)); [reflexivity|].
    destruct (given (batch args)); [reflexivity|].
    apply run_print_all. }
  split; [exact Hmain|].
  intros converter w1 Hinit. rewrite Hmain, Hinit.
  pose proof (silent_init (output_dir args) w) as Hs.
  rewrite Hinit in Hs. unfold same_stdout in Hs. cbn [snd] in Hs. rewrite Hs.
  assert (exists printed,
    stdout (snd match selected_mode args with
                | SampleCreation => sample_mode L sample_html converter w1
                | SingleFile => single_file_mode L converter args w1
                | BatchConversion => batch_mode L converter args w1
                | NoOp => (Ok tt, mkWorld (fs w1) (log w1) (stdout w1 ++ usage_lines))
                end) = (stdout w1 ++ printed)%list /\
    mode_output (selected_mode args) printed) as (printed & Hout & Hmode).
  { destruct (selected_mode args).
    - apply sample_mode_prints.
    - apply single_file_mode_prints.
    - apply batch_mode_prints.
    - exists usage_lines. split; reflexivity. }
  exists printed. split; [exact Hout|]. split; [exact Hmode|].
  intros m Hne Hm. exact (mode_output_identifies m (selected_mode args) printed Hne Hm Hmode).
Qed.

Lemma cli_dispatch_witness :
  exists printed,
    stdout (snd (main (Demo.libs true false) "<title>S</title>"
                   (mkArgs (Some "site/a.html") None (Some "site") "./pdf_outputs" false)
                   Demo.w0)) = printed /\
    mode_output SingleFile printed.
Proof.
  destruct (cli_dispatch (Demo.libs true false) "<title>S</title>"
              (mkArgs (Some "site/a.html") None (Some "site") "./pdf_outputs" false) Demo.w0)
    as [_ Hout].
  destruct (Hout (mkConverter "./pdf_outputs")
              (snd (init "./pdf_outputs" Demo.w0))) as (printed & Hp & Hm & _).
  - vm_compute. reflexivity.
  - exists printed. split; [exact Hp|exact Hm].
Defined.

(** C9, as stated, fails for an [--html] option whose value is empty: it
    is given, yet the usage hint is printed, not the outcome of a
    single-file conversion.  And when the output directory cannot be
    created no mode runs at all. *)
Lemma cli_ignores_empty_html :
  let L := Demo.libs true false in
  let args := mkArgs (Some "") None None "./pdf_outputs" false in
  html args = Some "" /\
  create_sample args = false /\
  stdout (snd (main L "" args Demo.w0)) = usage_lines /\
  stdout (snd ((converter ← init (output_dir args); single_file_mode L converter args) Demo.w0))
    = ["❌ Conversion failed: HTML file not found: "] /\
  fst (main L "" (mkArgs None None None "" false) Demo.w0)
    = Raise (FileNotFoundError "[Errno 2] No such file or directory: ''") /\
  stdout (snd (main L "" (mkArgs None None None "" false) Demo.w0)) = [].
Proof.
  repeat split; vm_compute; reflexivity.
Qed.

(** ** The theorems at work on the sample world *)

Lemma batch_report_entries_witness :
  exists names report w',
    os.listdir Demo.fs0 "site" = Ok names /\
    batch_convert_html_files (Demo.libs false true) Demo.converter "site" None Demo.w0
      = (Ok report, w') /\
    report.*1 = (os_path.join "site" <$> List.filter is_html names) /\
    length report = length (List.filter is_html names) /\
    NoDup (report.*1).
Proof.
  apply (batch_report_entries (Demo.libs false true) Demo.converter "site" None Demo.w0);
    vm_compute; reflexivity.
Defined.

Lemma batch_empty_report_witness :
  batch_convert_html_files (Demo.libs false true) Demo.converter "." None Demo.w0
    = (Ok [], mkWorld Demo.fs0 [(WARNING, "No HTML files found in .")] []).
Proof.
  destruct (batch_empty_report (Demo.libs false true) Demo.converter "." None Demo.w0)
    as [Hempty _].
  destruct Hempty as (names & Hls & Hrun); [vm_compute; reflexivity|].
  apply Hrun. vm_compute in Hls. injection Hls as <-. reflexivity.
Defined.

Lemma batch_isolates_failures_witness :
  exists names report w',
    os.listdir Demo.fs0 "site" = Ok names /\
    batch_convert_html_files (Demo.libs false true) Demo.converter "site" None Demo.w0
      = (Ok report, w') /\
    let html_files := List.filter is_html names in
    let o := "./pdf_outputs" in
    length report = length html_files /\
    NoDup (report.*1) /\
    forall i html_file,
      html_files !! i = Some html_file ->
      let turn := after_files (Demo.libs false true) Demo.converter "site" o (take i html_files)
                    (batch_start "site" html_files Demo.w0) in
      let attempt := fst (convert_entry (Demo.libs false true) Demo.converter "site" o
                            html_file turn) in
      report !! i = Some (os_path.join "site" html_file,
                          match attempt with
                          | Ok _ => pdf_path_for o html_file
                          | Raise e => "Error: " ++ str_exn e
                          end).
Proof.
  apply (batch_isolates_failures (Demo.libs false true) Demo.converter "site" None Demo.w0);
    vm_compute; reflexivity.
Defined.

Lemma batch_includes_directories_witness :
  exists report w' e,
    batch_convert_html_files (Demo.libs true false) Demo.converter "site" None Demo.w0
      = (Ok report, w') /\
    ("site/d.html", "Error: " ++ str_exn e) ∈ report /\
    length report = 3.
Proof.
  apply (batch_includes_directories (Demo.libs true false) Demo.converter "site" None Demo.w0
           ["c.txt"; "d.html"; "a.html"; "B.HTML"] "d.html").
  - vm_compute. reflexivity.
  - vm_compute. reflexivity.
  - apply list_elem_of_In. simpl. auto.
  - reflexivity.
  - vm_compute. reflexivity.
Defined.

(** The batch over the sample directory, run: the subdirectory fails, the
    two files are converted, the text file is not looked at. *)
Example batch_sample_run :
  fst (batch_convert_html_files (Demo.libs false true) Demo.converter "site" None Demo.w0)
    = Ok [ ("site/d.html", "Error: [Errno 21] Is a directory: 'site/d.html'");
           ("site/a.html", "./pdf_outputs/a.pdf");
           ("site/B.HTML", "./pdf_outputs/B.pdf") ].
Proof. vm_compute. reflexivity. Qed.

(** * Beyond the claims *)

(** ** Creating directories and writing files *)

Lemma mkdir_p_keeps_files (p : string) (comps seen cur : list string)
    (t t' : gmap (list string) inode) (k : list string) (data : string) :
  os.mkdir_p p t seen cur comps = Ok t' ->
  t !! k = Some (RegularFile data) -> t' !! k = Some (RegularFile data).
Proof.
  revert t seen cur. induction comps as [|c rest IH]; intros t seen cur H Hk;
    cbn [os.mkdir_p] in H; destruct (os.node t cur) as [[]|]; try discriminate.
  - congruence.
  - destruct (String.eqb c "" || String.eqb c "."); [eapply IH; eauto|].
    destruct (String.eqb c ".."); [eapply IH; eauto|]. cbv zeta in H.
    destruct (t !! (cur ++ [c])%list) as [[]|] eqn:E; try discriminate.
    + eapply IH; eauto.
    + eapply IH; [exact H|]. rewrite lookup_insert_ne; [exact Hk|]. congruence.
Qed.



(** Along a path that resolves to a regular file [mkdir_p] stops at the
    file. *)
Lemma mkdir_p_on_file (p : string) (comps seen cur : list string)
    (t : gmap (list string) inode) (k : list string) (data : string) :
  os.walk p t cur comps = Ok k -> os.node t k = Some (RegularFile data) ->
  exists e, os.mkdir_p p t seen cur comps = Raise e /\ (e = os.eexist p \/ e = os.enotdir p).
Proof.
  revert seen cur. induction comps as [|c rest IH]; intros seen cur Hw Hk;
    cbn [os.walk] in Hw; cbn [os.mkdir_p].
  - injection Hw as ->. rewrite Hk. eauto.
  - destruct (os.node t cur) as [[]|]; try discriminate.
    unfold os.step in Hw.
    destruct (String.eqb c "" || String.eqb c "."); [now apply IH|].
    destruct (String.eqb c ".."); [now apply IH|]. cbv zeta.
    destruct rest as [|c' rest'].
    + cbn [os.walk] in Hw. injection Hw as <-.
      rewrite node_snoc in Hk. rewrite Hk. cbn [os.blocked]. eauto.
    + assert (os.node t (cur ++ [c]) = Some Directory) as Hd.
      { cbn [os.walk] in Hw.
        destruct (os.node t (cur ++ [c])) as [[]|]; try discriminate. reflexivity. }
      rewrite <- node_snoc, Hd. now apply IH.
Qed.



Lemma makedirs_keeps_files (f f' : filesystem) (name p data : string) :
  os.makedirs f name = Ok f' ->
  os.lookup_path f p = Some (RegularFile data) ->
  os.lookup_path f' p = Some (RegularFile data).
Proof.
  intros E Hfile. pose proof (makedirs_keeps _ _ _ E) as Hle.
  unfold os.lookup_path in *.
  destruct (os.resolve f p) as [j|] eqn:Hr; [|discriminate].
  rewrite (resolve_mono _ _ _ _ Hle Hr).
  unfold os.makedirs in E. destruct (PyStr.truthy name); [|discriminate].
  destruct (os.mkdir_p _ _ _ _ _) as [t|e] eqn:E'; [|discriminate].
  injection E as <-. destruct j as [|x j]; [discriminate|].
  cbn [os.node tree] in Hfile |- *. eapply mkdir_p_keeps_files; eauto.
Qed.

Lemma removelast_shorter {A : Type} (k : list A) : k <> [] -> removelast k <> k.
Proof.
  intros Hk Heq. apply (f_equal (@length A)) in Heq.
  destruct k as [|x k]; [congruence|].
  assert (forall l : list A, l <> [] -> S (length (removelast l)) = length l) as Hlen.
  { clear. induction l as [|y l IH]; [congruence|]. intros _.
    destruct l as [|z l]; [reflexivity|]. simpl in *. f_equal. apply IH. congruence. }
  specialize (Hlen (x :: k) Hk). lia.
Qed.

(** What [write_file] does when it returns. *)
Lemma write_file_ok (f f' : filesystem) (p data : string) :
  os.write_file f p data = Ok f' ->
  exists k,
    os.resolve f p = Ok k /\ k <> [] /\
    os.node (tree f) (removelast k) = Some Directory /\
    f' = mkFs (cwd f) (<[k := RegularFile data]> (tree f)).
Proof.
  unfold os.write_file. destruct (PyStr.endswith p "/").
  { destruct (os.walk _ _ _ _); discriminate. }
  destruct (os.resolve f p) as [k|]; [|discriminate].
  intros H. exists k.
  destruct k as [|x k]; [discriminate|].
  destruct (os.node (tree f) (x :: k)) as [[]|];
    destruct (os.node (tree f) (removelast (x :: k))) as [[]|]; try discriminate;
    injection H as <-; repeat split; congruence.
Qed.

Lemma write_file_no_slash (f f' : filesystem) (p data : string) :
  os.write_file f p data = Ok f' -> PyStr.endswith p "/" = false.
Proof.
  unfold os.write_file. destruct (PyStr.endswith p "/"); [|reflexivity].
  destruct (os.walk _ _ _ _); discriminate.
Qed.

(** Reading back what was written. *)
Lemma write_then_read (f f' : filesystem) (p data : string) :
  os.write_file f p data = Ok f' -> os.read_file f' p = Ok data.
Proof.
  intros H. pose proof (write_file_keeps _ _ _ _ H) as Hle.
  apply write_file_ok in H as (k & Hk & Hne & _ & ->).
  unfold os.read_file. rewrite (resolve_mono _ _ _ _ Hle Hk).
  destruct k as [|x k]; [congruence|]. simpl. now rewrite lookup_insert_eq.
Qed.

(** A file that was written can be written again. *)
Lemma write_file_again (f f' : filesystem) (p data data' : string) :
  os.write_file f p data = Ok f' -> exists f'', os.write_file f' p data' = Ok f''.
Proof.
  intros H. pose proof (write_file_keeps _ _ _ _ H) as Hle.
  pose proof (write_file_no_slash _ _ _ _ H) as Hslash.
  apply write_file_ok in H as (k & Hk & Hne & Hparent & ->).
  unfold os.write_file. rewrite Hslash, (resolve_mono _ _ _ _ Hle Hk).
  cbn [tree cwd].
  assert (os.node (<[k := RegularFile data]> (tree f)) k = Some (RegularFile data)) as ->.
  { destruct k; [congruence|]. simpl. apply lookup_insert_eq. }
  assert (os.node (<[k := RegularFile data]> (tree f)) (removelast k) = Some Directory) as ->.
  { destruct (removelast k) as [|y j] eqn:E; [reflexivity|].
    simpl in *. rewrite lookup_insert_ne; [exact Hparent|].
    rewrite <- E. intros Heq. now apply (removelast_shorter k). }
  eauto.
Qed.

(** ** The constructor *)

Lemma run_makedirs (name : string) (w : world) :
  os_makedirs name w
    = match os.makedirs (fs w) name with
      | Ok f => (Ok tt, mkWorld f (log w) (stdout w))
      | Raise e => (Raise e, w)
      end.
Proof. reflexivity. Qed.

Lemma run_write (p data : string) (w : world) :
  write_bytes p data w
    = match os.write_file (fs w) p data with
      | Ok f => (Ok tt, mkWorld f (log w) (stdout w))
      | Raise e => (Raise e, w)
      end.
Proof. reflexivity. Qed.

Lemma run_init (output_directory' : string) (w : world) :
  init output_directory' w
    = match os.makedirs (fs w) output_directory' with
      | Ok f => (Ok (mkConverter output_directory'),
                 mkWorld f (log w ++ [(INFO, "Output directory: " ++ output_directory')])
                   (stdout w))
      | Raise e => (Raise e, w)
      end.
Proof.
  unfold init, ensure_output_directory. rewrite !run_bind, run_makedirs. cbn [output_directory].
  destruct (os.makedirs (fs w) output_directory'); reflexivity.
Qed.

Lemma run_create_sample (sample_html filename : string) (w : world) :
  create_sample_html_file sample_html filename w
    = match os.write_file (fs w) filename sample_html with
      | Ok f => (Ok filename,
                 mkWorld f (log w ++ [(INFO, "✅ Sample HTML file created: " ++ filename)])
                   (stdout w))
      | Raise e => (Raise e, w)
      end.
Proof.
  unfold create_sample_html_file. rewrite !run_bind, run_write.
  destruct (os.write_file (fs w) filename sample_html); reflexivity.
Qed.



(** X2. An output directory path that names a regular file makes the
    constructor raise [FileExistsError] or [NotADirectoryError]; the world
    is left as it was, the file included. *)
Theorem init_refuses_regular_file (output_directory' data : string) (w : world) :
  os.read_file (fs w) output_directory' = Ok data ->
  exists e,
    init output_directory' w = (Raise e, w) /\
    (e = os.eexist output_directory' \/ e = os.enotdir output_directory').
Proof.
  intros Hread. rewrite run_init.
  unfold os.read_file, os.resolve in Hread. unfold os.makedirs.
  destruct (PyStr.truthy output_directory'); [|discriminate].
  destruct (os.walk _ _ _ _) as [k|] eqn:Hw; [|discriminate].
  destruct (os.node (tree (fs w)) k) as [[d|]|] eqn:Hk; try discriminate.
  destruct (mkdir_p_on_file _ _ [] _ _ _ _ Hw Hk) as (e & -> & He).
  exists e. split; [reflexivity|exact He].
Qed.

Lemma init_refuses_regular_file_witness :
  exists e,
    init "site/c.txt" Demo.w0 = (Raise e, Demo.w0) /\
    (e = os.eexist "site/c.txt" \/ e = os.enotdir "site/c.txt").
Proof.
  apply (init_refuses_regular_file "site/c.txt" "z" Demo.w0). vm_compute. reflexivity.
Defined.

(** ** The sample file *)

(** X3. When [create_sample_html_file] returns, it returns the file name
    it was given and the file holds the sample text; creating the sample
    again under that name, with any text, succeeds and replaces the
    content. *)
Theorem create_sample_overwrites (sample_html filename r : string) (w w1 : world) :
  create_sample_html_file sample_html filename w = (Ok r, w1) ->
  r = filename /\
  os.read_file (fs w1) filename = Ok sample_html /\
  forall sample_html',
    exists w2,
      create_sample_html_file sample_html' filename w1 = (Ok filename, w2) /\
      os.read_file (fs w2) filename = Ok sample_html'.
Proof.
  rewrite run_create_sample.
  destruct (os.write_file (fs w) filename sample_html) as [f|e] eqn:E; [|discriminate].
  intros [= <- <-]. cbn [fs].
  split; [reflexivity|]. split; [eapply write_then_read, E|].
  intros sample_html'.
  destruct (write_file_again _ _ _ _ sample_html' E) as [f'' E'].
  eexists. rewrite run_create_sample. cbn [fs]. rewrite E'. split; [reflexivity|].
  cbn [fs]. eapply write_then_read, E'.
Qed.

Lemma create_sample_overwrites_witness :
  os.read_file (fs (snd (create_sample_html_file "<p>s</p>" "sample_report.html" Demo.w0)))
    "sample_report.html" = Ok "<p>s</p>".
Proof.
  apply (create_sample_overwrites "<p>s</p>" "sample_report.html" "sample_report.html" Demo.w0
           (snd (create_sample_html_file "<p>s</p>" "sample_report.html" Demo.w0))).
  vm_compute. reflexivity.
Defined.

(** ** Converting a string, stage by stage *)

(** The stages of a backend that is ready to run: the directory, the
    engine, the file. *)
Lemma run_string_backend (L : libraries) (self : HTMLToPDFConverter)
    (html_content output_pdf_path : string) (w : world) :
  PDF_METHOD L = Some weasyprint \/ (PDF_METHOD L = Some reportlab /\ bs4_importable L = true) ->
  match PDF_METHOD L with
  | Some weasyprint => _convert_with_weasyprint_string L self html_content output_pdf_path
  | Some reportlab => _convert_with_reportlab_string L self html_content output_pdf_path
  | None => raise (RuntimeError ("Unknown PDF method: " ++ str_method (PDF_METHOD L)))
  end w
  = match os.makedirs (fs w) (os_path.dirname output_pdf_path) with
    | Raise e => (Raise e, w)
    | Ok f1 =>
        match engine_output L f1 html_content with
        | Raise e => (Raise e, mkWorld f1 (log w) (stdout w))
        | Ok pdf =>
            match os.write_file f1 output_pdf_path pdf with
            | Raise e => (Raise e, mkWorld f1 (log w) (stdout w))
            | Ok f2 => (Ok output_pdf_path,
                        mkWorld f2 (log w ++ [success_log L output_pdf_path]) (stdout w))
            end
        end
    end.
Proof.
  unfold engine_output, success_log, _convert_with_weasyprint_string,
    _convert_with_reportlab_string.
  intros [Hm|[Hm Hb]]; rewrite Hm; [|rewrite Hb; change (negb true) with false; cbv iota];
    rewrite run_bind, run_makedirs;
    destruct (os.makedirs (fs w) (os_path.dirname output_pdf_path)) as [f1|e]; try reflexivity.
  - rewrite run_bind. unfold get_fs at 1. rewrite run_bind. unfold lift at 1. cbn [fs].
    destruct (weasyprint_render L f1 None html_content) as [pdf|e]; [|reflexivity].
    rewrite run_bind, run_write. cbn [fs].
    destruct (os.write_file f1 output_pdf_path pdf); reflexivity.
  - rewrite run_bind. unfold lift at 1.
    destruct (reportlab_build L (build_story L html_content)) as [pdf|e]; [|reflexivity].
    rewrite run_bind, run_write. cbn [fs].
    destruct (os.write_file f1 output_pdf_path pdf); reflexivity.
Qed.

Lemma method_cases (L : libraries) :
  PDF_GENERATION_AVAILABLE L = true ->
  PDF_METHOD L = Some weasyprint \/
  (PDF_METHOD L = Some reportlab /\ bs4_importable L = true) \/
  (PDF_METHOD L = Some reportlab /\ bs4_importable L = false).
Proof.
  intros Ha. destruct (PDF_METHOD L) as [[]|] eqn:Hm; auto.
  - destruct (bs4_importable L); auto.
  - apply available_method in Hm. congruence.
Qed.

Lemma write_file_keeps_isdir (f f' : filesystem) (p data d : string) :
  os.write_file f p data = Ok f' -> os.path_isdir f d = true -> os.path_isdir f' d = true.
Proof. intros Hw. apply fs_le_isdir. eapply write_file_keeps, Hw. Qed.

(** X4. When [convert_html_string_to_pdf] returns, it returns the output
    path it was given; the parent directory of that path exists, the file
    at that path holds what the selected engine made of the text, the
    last line of the log reports the success, and nothing was printed. *)
Theorem convert_string_writes_output (L : libraries) (self : HTMLToPDFConverter)
    (html_content output_pdf_path r : string) (w w' : world) :
  convert_html_string_to_pdf L self html_content output_pdf_path w = (Ok r, w') ->
  r = output_pdf_path /\
  exists f1 pdf,
    os.makedirs (fs w) (os_path.dirname output_pdf_path) = Ok f1 /\
    engine_output L f1 html_content = Ok pdf /\
    os.read_file (fs w') output_pdf_path = Ok pdf /\
    os.path_isdir (fs w') (os_path.dirname output_pdf_path) = true /\
    last (log w') = Some (success_log L output_pdf_path) /\
    stdout w' = stdout w.
Proof.
  destruct (PDF_GENERATION_AVAILABLE L) eqn:Ha.
  2: { unfold convert_html_string_to_pdf. rewrite Ha. discriminate. }
  rewrite (convert_string_unfold L self _ _ w Ha). unfold try_except.
  destruct (method_cases L Ha) as [Hm|[Hm|[Hm Hb]]].
  3: { rewrite Hm. unfold _convert_with_reportlab_string. rewrite Hb. discriminate. }
  all: rewrite (run_string_backend L self _ _ _ (ltac:(tauto))); cbn [fs log stdout add_log];
    destruct (os.makedirs (fs w) (os_path.dirname output_pdf_path)) as [f1|e] eqn:Emk;
      [|discriminate];
    destruct (engine_output L f1 html_content) as [pdf|e] eqn:Een; [|discriminate];
    destruct (os.write_file f1 output_pdf_path pdf) as [f2|e] eqn:Ewr; [|discriminate];
    intros [= <- <-]; cbn [fs log stdout];
    (split; [reflexivity|]); exists f1, pdf;
    repeat split; auto using last_snoc;
    [ eapply write_then_read, Ewr
    | eapply write_file_keeps_isdir; [exact Ewr|eapply makedirs_creates, Emk] ].
Qed.

Lemma convert_string_writes_output_witness :
  os.read_file
    (fs (snd (convert_html_string_to_pdf (Demo.libs false true) Demo.converter
                "<title>T</title><p>x</p>" "out/t.pdf" Demo.w0))) "out/t.pdf"
    = Ok ("%PDF reportlab T" ++ String PyStr.nl ("Tx" ++ String PyStr.nl "")).
Proof.
  destruct (convert_string_writes_output (Demo.libs false true) Demo.converter
              "<title>T</title><p>x</p>" "out/t.pdf" "out/t.pdf" Demo.w0
              (snd (convert_html_string_to_pdf (Demo.libs false true) Demo.converter
                      "<title>T</title><p>x</p>" "out/t.pdf" Demo.w0)))
    as (_ & f1 & pdf & _ & Hengine & Hread & _).
  - vm_compute. reflexivity.
  - rewrite Hread. rewrite <- Hengine. reflexivity.
Defined.



(** ** Converting a file through the fallback backend *)

Lemma run_reportlab_string (L : libraries) (self : HTMLToPDFConverter)
    (html_content output_pdf_path : string) (w : world) :
  PDF_METHOD L = Some reportlab ->
  try_except (_convert_with_reportlab_string L self html_content output_pdf_path)
    log_and_reraise w
  = if bs4_importable L then
      match os.makedirs (fs w) (os_path.dirname output_pdf_path) with
      | Raise e => (Raise e, add_log w [(ERROR, "PDF conversion failed: " ++ str_exn e)])
      | Ok f1 =>
          match engine_output L f1 html_content with
          | Raise e => (Raise e, mkWorld f1
                          (log w ++ [(ERROR, "PDF conversion failed: " ++ str_exn e)]) (stdout w))
          | Ok pdf =>
              match os.write_file f1 output_pdf_path pdf with
              | Raise e => (Raise e, mkWorld f1
                              (log w ++ [(ERROR, "PDF conversion failed: " ++ str_exn e)])
                              (stdout w))
              | Ok f2 => (Ok output_pdf_path,
                          mkWorld f2 (log w ++ [success_log L output_pdf_path]) (stdout w))
              end
          end
      end
    else (Raise bs4_missing, add_log w [(ERROR, "PDF conversion failed: " ++ str_exn bs4_missing)]).
Proof.
  intros Hm. unfold try_except.
  destruct (bs4_importable L) eqn:Hb.
  - pose proof (run_string_backend L self html_content output_pdf_path w
                  (or_intror (conj Hm Hb))) as Hrun.
    rewrite Hm in Hrun. rewrite Hrun.
    destruct (os.makedirs (fs w) (os_path.dirname output_pdf_path)) as [f1|e]; [|reflexivity].
    destruct (engine_output L f1 html_content) as [pdf|e]; [|reflexivity].
    destruct (os.write_file f1 output_pdf_path pdf); reflexivity.
  - unfold _convert_with_reportlab_string. rewrite Hb. reflexivity.
Qed.

(** X6. Under the fallback backend, converting a readable file to a
    given path does what converting its text to that path does: the same
    value or exception, and the same filesystem afterwards. *)
Theorem reportlab_file_as_string (L : libraries) (self : HTMLToPDFConverter)
    (html_file_path output_pdf_path source : string) (w : world) :
  PDF_METHOD L = Some reportlab ->
  os.read_file (fs w) html_file_path = Ok source ->
  let by_file := convert_html_file_to_pdf L self html_file_path (Some output_pdf_path) w in
  let by_text := convert_html_string_to_pdf L self source output_pdf_path w in
  fst by_file = fst by_text /\ fs (snd by_file) = fs (snd by_text).
Proof.
  intros Hm Hread by_file by_text. subst by_file by_text.
  assert (PDF_GENERATION_AVAILABLE L = true) as Ha.
  { destruct (PDF_GENERATION_AVAILABLE L) eqn:E; [reflexivity|].
    apply available_method in E. congruence. }
  assert (os.path_exists (fs w) html_file_path = true) as He.
  { eapply read_exists, Hread. }
  rewrite (convert_string_unfold L self _ _ w Ha), (convert_file_unfold L self _ _ w Ha He).
  rewrite Hm.
  match goal with
  | |- context [try_except (_convert_with_reportlab_file L self ?p ?o) _ ?w2] =>
      assert (try_except (_convert_with_reportlab_file L self p o) log_and_reraise w2
              = try_except (_convert_with_reportlab_string L self source o) log_and_reraise w2)
        as ->
  end.
  { unfold try_except, _convert_with_reportlab_file. rewrite run_bind.
    unfold read_text, query_fs. cbn [fs add_log]. now rewrite Hread. }
  rewrite !(run_reportlab_string L self _ _ _ Hm). cbn [fs add_log log stdout].
  destruct (bs4_importable L); [|auto].
  destruct (os.makedirs (fs w) (os_path.dirname output_pdf_path)) as [f1|e]; [|auto].
  destruct (engine_output L f1 source) as [pdf|e]; [|auto].
  destruct (os.write_file f1 output_pdf_path pdf); auto.
Qed.

Lemma reportlab_file_as_string_witness :
  fst (convert_html_file_to_pdf (Demo.libs false true) Demo.converter "site/a.html"
         (Some "out/a.pdf") Demo.w0)
    = fst (convert_html_string_to_pdf (Demo.libs false true) Demo.converter
             "<title>T</title><p>x</p>" "out/a.pdf" Demo.w0).
Proof.
  apply (reportlab_file_as_string (Demo.libs false true) Demo.converter "site/a.html"
           "out/a.pdf" "<title>T</title><p>x</p>" Demo.w0); vm_compute; reflexivity.
Defined.

(** ** More on the batch report *)

Lemma startswith_app_l (a b p : string) :
  PyStr.startswith a p = true -> PyStr.startswith (a ++ b) p = true.
Proof.
  revert a. induction p as [|c p IH]; intros a H; [reflexivity|].
  destruct a as [|x a]; [discriminate|]. simpl in *.
  apply andb_true_iff in H as [-> H]. simpl. now apply IH.
Qed.

Lemma dict_set_values (P : string -> Prop) (d : list (string * string)) (k v : string) :
  Forall (fun kv => P (snd kv)) d -> P v -> Forall (fun kv => P (snd kv)) (dict_set d k v).
Proof.
  intros Hd Hv. induction Hd as [|[k' v'] d Hkv Hd IH]; simpl.
  - constructor; [exact Hv|constructor].
  - destruct (String.eqb k' k); constructor; auto.
Qed.

(** A property of every value the loop can store holds of the report. *)
Lemma batch_values (P : string -> Prop) (L : libraries) (self : HTMLToPDFConverter)
    (d : string) (o : option string) (report : list (string * string)) (w w' : world) :
  (forall f w0, P (snd (entry_for L self d (default (output_directory self) o) w0 f))) ->
  batch_convert_html_files L self d o w = (Ok report, w') ->
  Forall (fun kv => P (snd kv)) report.
Proof.
  intros HP. unfold batch_convert_html_files.
  rewrite run_bind, run_exists.
  destruct (negb (os.path_exists (fs w) d)); [discriminate|].
  rewrite run_bind. unfold os_listdir, query_fs.
  destruct (os.listdir (fs w) d) as [names|e]; [|discriminate].
  destruct (List.filter is_html names) as [|f files] eqn:E.
  - rewrite run_bind, run_logger, run_ret. intros [= <- _]. constructor.
  - rewrite <- E. clear E. rewrite run_bind, run_logger.
    replace (match o with Some d0 => d0 | None => output_directory self end)
      with (default (output_directory self) o) by (now destruct o).
    generalize (mkWorld (fs w)
      (log w ++ [(INFO, "Found " ++ PyStr.of_nat (length (List.filter is_html names))
                        ++ " HTML files to convert")]) (stdout w)).
    assert (Forall (fun kv : string * string => P (snd kv)) []) as Hacc by constructor.
    revert Hacc. generalize (@nil (string * string)).
    induction (List.filter is_html names) as [|f' files' IH]; intros results Hacc w0; simpl.
    + rewrite run_ret. now intros [= <- _].
    + rewrite run_bind, batch_step_run. apply IH. apply dict_set_values; [exact Hacc|apply HP].
Qed.

(** X7. The command line tells failures from successes by the prefix
    [Error:] of the report value (lines 462-463 and 470).  When the output
    directory's name begins with [Error:], every value of the report
    begins with it, the PDF paths of the converted files included, so the
    count of successes is zero whatever was converted. *)
Theorem error_prefixed_output_directory (L : libraries) (self : HTMLToPDFConverter)
    (html_directory output_directory' : string) (report : list (string * string))
    (w w' : world) :
  PyStr.startswith output_directory' "Error:" = true ->
  batch_convert_html_files L self html_directory (Some output_directory') w = (Ok report, w') ->
  Forall (fun kv => is_error (snd kv) = true) report /\
  length (List.filter (fun kv => negb (is_error (snd kv))) report) = 0.
Proof.
  intros Hprefix Hrun.
  assert (Forall (fun kv => is_error (snd kv) = true) report) as Hall.
  { apply (batch_values (fun v => is_error v = true) L self html_directory
             (Some output_directory') report w w'); [|exact Hrun].
    intros f w0. unfold entry_for, convert_entry. cbn [snd default].
    destruct (convert_html_file_to_pdf L self _ _ w0) as [[r|e] w1] eqn:E; [|reflexivity].
    cbn [fst outcome]. rewrite (convert_file_returns _ _ _ _ _ _ _ E).
    unfold pdf_path_for, is_error.
    rewrite (join_name _ _ ".pdf" (stem_no_sep f) eq_refl).
    now apply startswith_app_l. }
  split; [exact Hall|]. clear Hrun.
  induction Hall as [|kv report Hkv Hall IH]; [reflexivity|].
  cbn [List.filter]. rewrite Hkv. exact IH.
Qed.

Lemma error_prefixed_output_directory_witness :
  let run := batch_convert_html_files (Demo.libs false true) Demo.converter "site"
               (Some "Error:out") Demo.w0 in
  os.read_file (fs (snd run)) "Error:out/a.pdf"
    = Ok ("%PDF reportlab T" ++ String PyStr.nl ("Tx" ++ String PyStr.nl "")) /\
  forall report, fst run = Ok report ->
    length (List.filter (fun kv => negb (is_error (snd kv))) report) = 0.
Proof.
  intros run. split; [vm_compute; reflexivity|].
  intros report Hrun.
  apply (error_prefixed_output_directory (Demo.libs false true) Demo.converter "site"
           "Error:out" report Demo.w0 (snd run)); [reflexivity|].
  rewrite <- Hrun. subst run. now destruct (batch_convert_html_files _ _ _ _ _).
Defined.

Lemma entries_unavailable (L : libraries) (self : HTMLToPDFConverter) (d o : string)
    (files : list string) (w : world) :
  PDF_GENERATION_AVAILABLE L = false ->
  entries L self d o files w
    = ((fun f => (os_path.join d f, "Error: " ++ str_exn unavailable)) <$> files) /\
  fs (after_files L self d o files w) = fs w /\
  stdout (after_files L self d o files w) = stdout w.
Proof.
  intros Ha.
  assert (forall f w0, convert_entry L self d o f w0 = (Raise unavailable, w0)) as Hstep.
  { intros f w0. unfold convert_entry, convert_html_file_to_pdf. now rewrite Ha. }
  assert (forall f w0, after_file L self d o w0 f
            = mkWorld (fs w0) (log w0 ++ [step_log f (Raise unavailable)]) (stdout w0)) as Hafter.
  { intros f w0. unfold after_file. now rewrite Hstep. }
  assert (forall f w0, entry_for L self d o w0 f
            = (os_path.join d f, "Error: " ++ str_exn unavailable)) as Hentry.
  { intros f w0. unfold entry_for. now rewrite Hstep. }
  revert w. induction files as [|f files IH]; intros w; [auto|].
  unfold after_files in *. cbn [entries fold_left fmap list_fmap].
  rewrite Hentry, Hafter.
  destruct (IH (mkWorld (fs w) (log w ++ [step_log f (Raise unavailable)]) (stdout w)))
    as (-> & -> & ->).
  auto.
Qed.

(** X8. With no backend selected the batch does not raise the
    unavailability error: it returns a report in which every listed HTML
    name has that error as its entry, and the filesystem is untouched. *)
Theorem batch_without_backend (L : libraries) (self : HTMLToPDFConverter)
    (html_directory : string) (output_directory' : option string) (w : world) :
  PDF_GENERATION_AVAILABLE L = false ->
  fs_wf (fs w) = true ->
  os.path_isdir (fs w) html_directory = true ->
  exists names w',
    os.listdir (fs w) html_directory = Ok names /\
    batch_convert_html_files L self html_directory output_directory' w
      = (Ok ((fun f => (os_path.join html_directory f,
                        "Error: PDF generation not available. Install weasyprint or reportlab."))
             <$> List.filter is_html names), w') /\
    fs w' = fs w /\ stdout w' = stdout w.
Proof.
  intros Ha Hwf Hdir.
  destruct (wf_batch_run L self html_directory output_directory' w Hwf Hdir)
    as (names & Hls & _ & Hrun).
  cbv zeta in Hrun.
  destruct (entries_unavailable L self html_directory
              (default (output_directory self) output_directory') (List.filter is_html names)
              (batch_start html_directory (List.filter is_html names) w) Ha)
    as (Hentries & Hfs & Hout).
  rewrite Hentries in Hrun.
  exists names. eexists. split; [exact Hls|]. split; [exact Hrun|]. auto.
Qed.

Lemma batch_without_backend_witness :
  exists names w',
    os.listdir Demo.fs0 "site" = Ok names /\
    batch_convert_html_files (Demo.libs false false) Demo.converter "site" None Demo.w0
      = (Ok ((fun f => (os_path.join "site" f,
                        "Error: PDF generation not available. Install weasyprint or reportlab."))
             <$> List.filter is_html names), w') /\
    fs w' = Demo.fs0 /\ stdout w' = [].
Proof.
  apply (batch_without_backend (Demo.libs false false) Demo.converter "site" None Demo.w0);
    vm_compute; reflexivity.
Defined.

(** ** How [main] ends *)

Lemma single_file_mode_returns (L : libraries) (converter : HTMLToPDFConverter)
    (args : Namespace) (w : world) :
  fst (single_file_mode L converter args w) = Ok tt.
Proof.
  unfold single_file_mode, try_except. rewrite run_bind.
  destruct (convert_html_file_to_pdf L converter _ _ w) as [[pdf|e] w1]; reflexivity.
Qed.

Lemma batch_mode_returns (L : libraries) (converter : HTMLToPDFConverter)
    (args : Namespace) (w : world) :
  fst (batch_mode L converter args w) = Ok tt.
Proof.
  unfold batch_mode, try_except. rewrite run_bind.
  destruct (batch_convert_html_files L converter _ _ w) as [[results|e] w1]; [|reflexivity].
  now rewrite run_bind, run_print, run_print_results.
Qed.

Lemma sample_mode_exit (L : libraries) (sample_html : string) (converter : HTMLToPDFConverter)
    (w : world) :
  fst (sample_mode L sample_html converter w)
    = match os.write_file (fs w) "sample_report.html" sample_html with
      | Ok _ => Ok tt
      | Raise e => Raise e
      end.
Proof.
  unfold sample_mode. rewrite run_bind, run_create_sample.
  destruct (os.write_file (fs w) "sample_report.html" sample_html) as [f|e]; [|reflexivity].
  rewrite run_bind, run_print. unfold try_except. rewrite run_bind.
  match goal with |- context [convert_html_file_to_pdf L converter ?p ?o ?w0] =>
    destruct (convert_html_file_to_pdf L converter p o w0) as [[pdf|e] w1]
  end; reflexivity.
Qed.

(** X9. [main] raises in two cases only: the output directory cannot be
    created, or the sample file cannot be written.  Whatever goes wrong in
    a single-file or batch conversion, or in converting the sample, is
    printed and [main] returns normally. *)
Theorem main_exit (L : libraries) (sample_html : string) (args : Namespace) (w : world) :
  fst (main L sample_html args w)
    = match os.makedirs (fs w) (output_dir args) with
      | Raise e => Raise e
      | Ok f =>
          if create_sample args
          then match os.write_file f "sample_report.html" sample_html with
               | Ok _ => Ok tt
               | Raise e => Raise e
               end
          else Ok tt
      end.
Proof.
  unfold main. rewrite run_bind, run_init.
  destruct (os.makedirs (fs w) (output_dir args)) as [f|e]; [|reflexivity].
  destruct (create_sample args); [apply sample_mode_exit|].
  destruct (given (html args)); [apply single_file_mode_returns|].
  destruct (given (batch args)); [apply batch_mode_returns|].
  unfold usage_hint. now rewrite run_print_all.
Qed.

(** ** What is never removed *)

Section PreservesCli.
Context (R : world -> world -> Prop).
Context (R_refl : forall w, R w w).
Context (R_trans : forall w1 w2 w3, R w1 w2 -> R w2 w3 -> R w1 w3).
Context (R_logger : forall l msg, preserves R (logger l msg)).
Context (R_print : forall line, preserves R (print line)).
Context (R_makedirs : forall name, preserves R (os_makedirs name)).
Context (R_write : forall p data, preserves R (write_bytes p data)).

Ltac preserving_cli :=
  repeat first
    [ progress (intros)
    | apply (preserves_convert_file R R_refl R_trans R_logger R_makedirs R_write)
    | apply (preserves_batch R R_refl R_trans R_logger R_makedirs R_write)
    | apply (preserves_init R R_refl R_trans R_logger R_makedirs)
    | apply (preserves_create_sample R R_refl R_trans R_logger R_write)
    | apply R_print
    | apply (preserves_bind R R_trans)
    | apply (preserves_try R R_trans)
    | solve [auto using preserves_ret, preserves_raise, preserves_lift, preserves_query,
               preserves_get_fs] ].

Lemma preserves_convert_string (L : libraries) (self : HTMLToPDFConverter)
    (html_content output_pdf_path : string) :
  preserves R (convert_html_string_to_pdf L self html_content output_pdf_path).
Proof.
  unfold convert_html_string_to_pdf.
  destruct (negb (PDF_GENERATION_AVAILABLE L)); [preserving_cli|].
  unfold log_and_reraise, _convert_with_weasyprint_string, _convert_with_reportlab_string.
  destruct (PDF_METHOD L) as [[]|]; preserving_cli.
  destruct (negb (bs4_importable L)); preserving_cli.
Qed.

Lemma preserves_print_results (results : list (string * string)) :
  preserves R (print_results results).
Proof.
  induction results as [|[k v] results IH]; simpl; [preserving_cli|].
  apply (preserves_bind R R_trans); [destruct (is_error v); apply R_print|intros _; exact IH].
Qed.

Lemma preserves_print_all (lines : list string) : preserves R (print_all lines).
Proof.
  induction lines as [|l lines IH]; simpl; [preserving_cli|].
  apply (preserves_bind R R_trans); [apply R_print|intros _; exact IH].
Qed.

Lemma preserves_main (L : libraries) (sample_html : string) (args : Namespace) :
  preserves R (main L sample_html args).
Proof.
  unfold main. apply (preserves_bind R R_trans); [preserving_cli|]. intros converter.
  pose proof preserves_print_results. pose proof preserves_print_all.
  unfold sample_mode, single_file_mode, batch_mode, usage_hint.
  destruct (create_sample args); [preserving_cli|].
  destruct (given (html args)); [preserving_cli|].
  destruct (given (batch args)); preserving_cli.
Qed.

End PreservesCli.

(** X10. Nothing the program does removes a directory or puts a file in
    its place, and the working directory stays what it was: this holds of
    both conversions, of the batch and of [main], however they end. *)
Theorem directories_are_kept (L : libraries) (self : HTMLToPDFConverter)
    (sample_html html_file_path html_content output_path html_directory : string)
    (output_pdf_path output_directory' : option string) (args : Namespace) (w : world) :
  fs_le (fs w) (fs (snd (convert_html_file_to_pdf L self html_file_path output_pdf_path w))) /\
  fs_le (fs w) (fs (snd (convert_html_string_to_pdf L self html_content output_path w))) /\
  fs_le (fs w) (fs (snd (batch_convert_html_files L self html_directory output_directory' w))) /\
  fs_le (fs w) (fs (snd (main L sample_html args w))).
Proof.
  assert (forall w0, dirs_le w0 w0) as Hrefl by (intros w0; apply fs_le_refl).
  assert (forall w1 w2 w3, dirs_le w1 w2 -> dirs_le w2 w3 -> dirs_le w1 w3) as Htrans
    by (intros w1 w2 w3; apply fs_le_trans).
  assert (forall l msg, preserves dirs_le (logger l msg)) as Hlog
    by (intros l msg w0; apply fs_le_refl).
  assert (forall line, preserves dirs_le (print line)) as Hprint
    by (intros line w0; apply fs_le_refl).
  split; [apply keeps_convert_file|].
  split; [apply (preserves_convert_string dirs_le Hrefl Htrans Hlog
                   dirs_le_makedirs dirs_le_write)|].
  split; [apply (preserves_batch dirs_le Hrefl Htrans Hlog dirs_le_makedirs dirs_le_write)|].
  apply (preserves_main dirs_le Hrefl Htrans Hlog Hprint dirs_le_makedirs dirs_le_write).
Qed.

(** ** From an HTML name to a PDF name *)

Lemma lower_app (a b : string) : PyStr.lower (a ++ b) = PyStr.lower a ++ PyStr.lower b.
Proof.
  induction a as [|c a IH]; [reflexivity|].
  change (PyStr.lower (String c (a ++ b))
          = String (PyStr.lower_char c) (PyStr.lower a ++ PyStr.lower b)).
  simpl. now rewrite IH.
Qed.

Lemma endswith_app (a b : string) : PyStr.endswith (a ++ b) b = true.
Proof.
  induction a as [|c a IH].
  - destruct b; simpl; [reflexivity|]. now rewrite Ascii.eqb_refl, String.eqb_refl.
  - change (PyStr.endswith (String c (a ++ b)) b = true). simpl. rewrite IH. apply orb_true_r.
Qed.

Lemma is_char_lower (c d : ascii) :
  PyStr.is_char c d = true -> PyStr.lower_char c = PyStr.lower_char d.
Proof. unfold PyStr.is_char. now intros ->%Ascii.eqb_eq. Qed.

Lemma lower_char_dot (c : ascii) : PyStr.lower_char c = "."%char -> c = "."%char.
Proof.
  unfold PyStr.lower_char.
  destruct ((65 <=? nat_of_ascii c)%nat && (nat_of_ascii c <=? 90)%nat) eqn:E; [|auto].
  apply andb_true_iff in E as [Hlo Hhi].
  apply Nat.leb_le in Hlo. apply Nat.leb_le in Hhi.
  intros H. apply (f_equal nat_of_ascii) in H.
  rewrite nat_ascii_embedding in H by lia.
  change (nat_of_ascii "."%char) with 46%nat in H. lia.
Qed.

Lemma rpartition_lacks (d : ascii) (t : string) :
  lacks d t = true -> PyStr.rpartition d t = ("", t).
Proof.
  induction t as [|c t IH]; [reflexivity|]. simpl.
  intros [Hc Ht]%andb_true_iff. rewrite (IH Ht). simpl.
  now destruct (PyStr.is_char c d).
Qed.

Lemma rpartition_last (d : ascii) (a t : string) :
  lacks d t = true -> PyStr.rpartition d (a ++ String d t) = (a ++ String d "", t).
Proof.
  intros Ht. induction a as [|c a IH].
  - simpl. rewrite (rpartition_lacks d t Ht). simpl.
    unfold PyStr.is_char. now rewrite Ascii.eqb_refl.
  - change (PyStr.rpartition d (String c (a ++ String d t))
            = (String c (a ++ String d ""), t)).
    simpl. rewrite IH. now destruct a.
Qed.

Lemma drop_last_snoc (a : string) (c : ascii) : PyStr.drop_last (a ++ String c "") = a.
Proof.
  induction a as [|x a IH]; [reflexivity|].
  change (PyStr.drop_last (String x (a ++ String c "")) = String x a).
  simpl. rewrite IH. now destruct a.
Qed.

Lemma split_char_single (f : string) : no_sep f = true -> PyStr.split_char PyStr.sep f = [f].
Proof.
  induction f as [|c f IH]; [reflexivity|].
  rewrite no_sep_cons. intros [Hc Hf]%andb_true_iff. simpl.
  destruct (PyStr.is_char c PyStr.sep); [discriminate|]. now rewrite (IH Hf).
Qed.

(** What a string that lowers to [.html] looks like: the dot, then four
    characters that are neither dots nor slashes. *)
Lemma html_suffix_shape (ext : string) :
  PyStr.lower ext = ".html" ->
  exists rest,
    ext = String "."%char rest /\ PyStr.truthy rest = true /\
    lacks PyStr.dot rest = true /\ no_sep ext = true.
Proof.
  destruct ext as [|c0 [|c1 [|c2 [|c3 [|c4 [|c5 ext]]]]]]; try discriminate.
  intros [= H0 H1 H2 H3 H4].
  apply lower_char_dot in H0. subst c0.
  assert (forall c x, PyStr.lower_char c = x -> x <> "."%char -> x <> "/"%char ->
            PyStr.is_char c PyStr.dot = false /\ PyStr.is_char c PyStr.sep = false) as Hnot.
  { intros c x Hx Hd Hs. split.
    - destruct (PyStr.is_char c PyStr.dot) eqn:E; [|reflexivity].
      apply is_char_lower in E. exfalso. apply Hd. now rewrite <- Hx, E.
    - destruct (PyStr.is_char c PyStr.sep) eqn:E; [|reflexivity].
      apply is_char_lower in E. exfalso. apply Hs. now rewrite <- Hx, E. }
  destruct (Hnot _ _ H1) as [D1 S1]; [discriminate..|].
  destruct (Hnot _ _ H2) as [D2 S2]; [discriminate..|].
  destruct (Hnot _ _ H3) as [D3 S3]; [discriminate..|].
  destruct (Hnot _ _ H4) as [D4 S4]; [discriminate..|].
  eexists. split; [reflexivity|]. split; [reflexivity|]. split.
  - simpl. now rewrite D1, D2, D3, D4.
  - rewrite !no_sep_cons, S1, S2, S3, S4. reflexivity.
Qed.

Lemma name_of_entry (f : string) :
  no_sep f = true -> String.eqb f "" = false -> String.eqb f "." = false ->
  pathlib.name f = f.
Proof.
  intros Hf H0 H1. unfold pathlib.name, pathlib.parts.
  rewrite (split_char_single f Hf). simpl. now rewrite H0, H1.
Qed.

(** X11. A name made of a non-empty base without slashes and a suffix
    that is [.html] in any mix of cases is taken into the batch and has
    the base as its stem, so its PDF is named by the base followed by
    [.pdf]; dots in the base stay.  A name that is nothing but such a
    suffix is its own stem, and its PDF keeps the suffix before [.pdf]. *)
Theorem pdf_name_of_html_name (base ext output_directory' : string) :
  no_sep base = true ->
  PyStr.lower ext = ".html" ->
  is_html (base ++ ext) = true /\
  (PyStr.truthy base = true ->
   pathlib.stem (base ++ ext) = base /\
   pdf_path_for output_directory' (base ++ ext) = os_path.join output_directory' (base ++ ".pdf")) /\
  pathlib.stem ext = ext /\
  pdf_path_for output_directory' ext = os_path.join output_directory' (ext ++ ".pdf").
Proof.
  intros Hbase Hext.
  destruct (html_suffix_shape ext Hext) as (rest & -> & Hrest & Hdots & Hsep).
  split; [unfold is_html; rewrite lower_app, Hext; apply endswith_app|].
  assert (pathlib.stem (String "."%char rest) = String "."%char rest) as Hself.
  { unfold pathlib.stem. rewrite name_of_entry; [|exact Hsep|reflexivity|now destruct rest].
    simpl. rewrite (rpartition_lacks _ _ Hdots). reflexivity. }
  split; [|split; [exact Hself|unfold pdf_path_for; now rewrite Hself]].
  intros Hne.
  assert (pathlib.stem (base ++ String "."%char rest) = base) as Hstem.
  { unfold pathlib.stem. rewrite name_of_entry.
    - change (String "."%char rest) with (String PyStr.dot rest).
      rewrite (rpartition_last PyStr.dot base rest Hdots).
      destruct base as [|b base]; [discriminate|].
      destruct rest; [discriminate|].
      replace ((2 <=? String.length (String b base ++ String PyStr.dot ""))%nat) with true.
      + simpl. rewrite drop_last_snoc. now destruct base.
      + symmetry. apply Nat.leb_le.
        change (String b base ++ String PyStr.dot "") with (String b (base ++ String PyStr.dot "")).
        simpl. destruct base; simpl; lia.
    - now rewrite no_sep_app, Hbase, Hsep.
    - now destruct base.
    - destruct base as [|b [|b' base]]; [discriminate|simpl..];
        destruct (Ascii.eqb b "."); reflexivity.
  }
  split; [exact Hstem|]. unfold pdf_path_for. now rewrite Hstem.
Qed.

Lemma pdf_name_of_html_name_witness :
  pathlib.stem "Annual.Report.HtMl" = "Annual.Report" /\
  pdf_path_for "./pdf_outputs" "Annual.Report.HtMl" = "./pdf_outputs/Annual.Report.pdf".
Proof.
  destruct (pdf_name_of_html_name "Annual.Report" ".HtMl" "./pdf_outputs" eq_refl eq_refl)
    as (_ & Hbase & _).
  destruct (Hbase eq_refl) as [Hstem Hpdf]. split; [exact Hstem|exact Hpdf].
Defined.

(** ** The status lines of the batch mode *)

Lemma endswith_inv (s suffix : string) :
  PyStr.endswith s suffix = true -> exists a, s = a ++ suffix.
Proof.
  induction s as [|c s IH]; cbn [PyStr.endswith].
  - rewrite orb_false_r. intros H. exists "". now apply String.eqb_eq in H.
  - intros [H|H]%orb_true_iff.
    + exists "". now apply String.eqb_eq in H.
    + destruct (IH H) as [a ->]. now exists (String c a).
Qed.

Lemma no_sep_lacks (n : string) : no_sep n = lacks PyStr.sep n.
Proof.
  induction n as [|c n IH]; [reflexivity|]. rewrite no_sep_cons, IH. reflexivity.
Qed.

Lemma string_app_assoc (a b c : string) : (a ++ b) ++ c = a ++ (b ++ c).
Proof.
  induction a as [|x a IH]; [reflexivity|].
  change (String x ((a ++ b) ++ c) = String x (a ++ (b ++ c))). now rewrite IH.
Qed.

(** The last component of a joined path is the name that was joined. *)
Lemma basename_join (d n : string) :
  no_sep n = true -> os_path.basename (os_path.join d n) = n.
Proof.
  intros Hn. unfold os_path.basename. rewrite (join_no_sep d n Hn).
  assert (lacks PyStr.sep n = true) as Hl by (now rewrite <- no_sep_lacks).
  destruct (PyStr.truthy d) eqn:Hd; cbn [negb orb].
  - destruct (PyStr.endswith d "/") eqn:He.
    + destruct (endswith_inv _ _ He) as [a ->].
      rewrite string_app_assoc.
      change ("/" ++ "" ++ n) with (String PyStr.sep n).
      now rewrite (rpartition_last PyStr.sep a n Hl).
    + change ("/" ++ n) with (String PyStr.sep n).
      now rewrite (rpartition_last PyStr.sep d n Hl).
  - destruct d; [|discriminate]. change ("" ++ "" ++ n) with n.
    now rewrite (rpartition_no_sep n Hn).
Qed.

(** X12. The line the batch mode prints for an entry names the input
    file and the PDF without their directories: for a listed name [f], a
    failure prints the cross, [f] and the error text, and a success prints
    the tick, [f], an arrow and the stem of [f] followed by [.pdf]. *)
Theorem status_line_names (html_directory output_directory' f msg : string) :
  no_sep f = true ->
  os_path.basename (os_path.join html_directory f) = f /\
  result_line (os_path.join html_directory f, "Error: " ++ msg)
    = "❌ " ++ f ++ ": Error: " ++ msg /\
  (is_error (pdf_path_for output_directory' f) = false ->
   result_line (os_path.join html_directory f, pdf_path_for output_directory' f)
     = "✅ " ++ f ++ " -> " ++ pathlib.stem f ++ ".pdf").
Proof.
  intros Hf. pose proof (basename_join html_directory f Hf) as Hbase.
  split; [exact Hbase|]. split.
  - unfold result_line. cbn [fst snd]. now rewrite Hbase.
  - intros Hok. unfold result_line. cbn [fst snd]. rewrite Hok, Hbase.
    unfold pdf_path_for. rewrite basename_join; [reflexivity|].
    now rewrite no_sep_app, stem_no_sep.
Qed.

Lemma status_line_names_witness :
  result_line ("site/reports/a.html", pdf_path_for "./pdf_outputs" "a.html")
    = "✅ a.html -> a.pdf".
Proof.
  destruct (status_line_names "site/reports" "./pdf_outputs" "a.html" "" eq_refl)
    as (_ & _ & Hok).
  exact (Hok eq_refl).
Defined.

(** ** The paragraphs of the fallback story *)

Lemma rstrip_rstrip (s : string) : PyStr.rstrip (PyStr.rstrip s) = PyStr.rstrip s.
Proof.
  induction s as [|c s IH]; [reflexivity|]. simpl.
  destruct (PyStr.rstrip s) as [|x r] eqn:E.
  - destruct (PyStr.isspace c) eqn:Hc; [reflexivity|]. simpl. now rewrite Hc.
  - simpl in IH. simpl. rewrite IH. reflexivity.
Qed.

Lemma lstrip_head (s : string) :
  PyStr.lstrip s = "" \/
  exists c r, PyStr.lstrip s = String c r /\ PyStr.isspace c = false.
Proof.
  induction s as [|c s IH]; [now left|]. simpl.
  destruct (PyStr.isspace c) eqn:Hc; [exact IH|]. right. eauto.
Qed.

Lemma rstrip_keeps_head (c : ascii) (r : string) :
  PyStr.isspace c = false -> exists r', PyStr.rstrip (String c r) = String c r'.
Proof.
  intros Hc. simpl. destruct (PyStr.rstrip r); [rewrite Hc|]; eauto.
Qed.

(** Stripping twice is stripping once. *)
Lemma strip_strip (s : string) : PyStr.strip (PyStr.strip s) = PyStr.strip s.
Proof.
  unfold PyStr.strip.
  destruct (lstrip_head s) as [->|(c & r & -> & Hc)]; [reflexivity|].
  destruct (rstrip_keeps_head c r Hc) as [r' Hr]. rewrite Hr.
  simpl PyStr.lstrip. rewrite Hc. rewrite <- Hr. apply rstrip_rstrip.
Qed.

(** X13. After the title block, if any, the story of the fallback
    backend is a sequence of paragraphs in the normal style, each followed
    by a spacer of height 6; no paragraph is empty and none begins or ends
    with white space. *)
Theorem story_paragraphs (L : libraries) (html_content : string) :
  let soup := bs4.decompose_all ["script"; "style"]
                (bs4.BeautifulSoup (html_parser L html_content)) in
  exists texts,
    build_story L html_content
      = (title_block soup ++ flat_map (fun t => [Paragraph t "Normal"; Spacer 1 6]) texts)%list /\
    Forall (fun t => PyStr.truthy t = true /\ PyStr.strip t = t) texts.
Proof.
  intros soup. unfold build_story. fold soup.
  generalize (PyStr.split_blank (bs4.get_text soup)). intros pieces.
  assert (exists texts,
            flat_map paragraph_block pieces
              = flat_map (fun t => [Paragraph t "Normal"; Spacer 1 6]) texts /\
            Forall (fun t => PyStr.truthy t = true /\ PyStr.strip t = t) texts)
    as (texts & Heq & Hall).
  { induction pieces as [|para pieces (texts & Heq & Hall)]; [exists []; auto|].
    simpl. unfold paragraph_block at 1.
    destruct (PyStr.truthy (PyStr.strip para)) eqn:E.
    - exists (PyStr.strip para :: texts). simpl. rewrite Heq. split; [reflexivity|].
      constructor; [|exact Hall]. split; [exact E|apply strip_strip].
    - exists texts. auto. }
  exists texts. now rewrite Heq.
Qed.

(** ** Paths below the output directory *)






















(** ** A constructed converter at work *)






(** ** What the batch mode prints *)

(** X15. When the batch returns a report, the batch mode prints one
    summary line, counting the entries that do not begin with [Error:]
    over all entries, and then one status line for each entry, in the
    order of the report; nothing else is printed, and the filesystem is
    the one the batch left. *)
Theorem batch_mode_output (L : libraries) (converter : HTMLToPDFConverter) (args : Namespace)
    (report : list (string * string)) (w w1 : world) :
  batch_convert_html_files L converter (default "" (batch args)) (Some (output_dir args)) w
    = (Ok report, w1) ->
  let successes := length (List.filter (fun kv => negb (is_error (snd kv))) report) in
  let after := snd (batch_mode L converter args w) in
  stdout after
    = (stdout w
       ++ ("🎉 Batch conversion completed: " ++ PyStr.of_nat successes ++ "/"
           ++ PyStr.of_nat (length report) ++ " files converted successfully")%string
       :: (result_line <$> report))%list /\
  length (stdout after) = (length (stdout w) + 1 + length report)%nat /\
  fs after = fs w1.
Proof.
  intros Hrun successes after. subst after.
  pose proof (silent_batch L converter (default "" (batch args)) (Some (output_dir args)) w)
    as Hsilent.
  unfold batch_mode, try_except. rewrite run_bind.
  rewrite Hrun in *. unfold same_stdout in Hsilent. cbn [snd] in Hsilent.
  rewrite run_bind, run_print, run_print_results. cbn [snd stdout fs log].
  rewrite <- Hsilent, <- app_assoc. cbn [app]. fold successes.
  split; [reflexivity|]. split; [|reflexivity].
  rewrite length_app. cbn [length]. rewrite length_fmap. lia.
Qed.

Lemma batch_mode_output_witness :
  stdout (snd (batch_mode (Demo.libs false true) Demo.converter
                 (mkArgs None None (Some "site") "./pdf_outputs" false) Demo.w0))
    = [ "🎉 Batch conversion completed: 2/3 files converted successfully";
        "❌ d.html: Error: [Errno 21] Is a directory: 'site/d.html'";
        "✅ a.html -> a.pdf";
        "✅ B.HTML -> B.pdf" ].
Proof.
  destruct (batch_mode_output (Demo.libs false true) Demo.converter
              (mkArgs None None (Some "site") "./pdf_outputs" false)
              [ ("site/d.html", "Error: [Errno 21] Is a directory: 'site/d.html'");
                ("site/a.html", "./pdf_outputs/a.pdf");
                ("site/B.HTML", "./pdf_outputs/B.pdf") ]
              Demo.w0
              (snd (batch_convert_html_files (Demo.libs false true) Demo.converter "site"
                      (Some "./pdf_outputs") Demo.w0)))
    as (Hout & _).
  - vm_compute. reflexivity.
  - rewrite Hout. reflexivity.
Defined.
